(** * NativevsAgenticRAG: a shallow embedding of the routing and answering core

    The development follows the Python sources:
    - [core/memory.py]       : [ChatMemory], [PersistentMemory]
    - [core/vectorstore.py]  : [build_vector_store]
    - [agents/base_agent.py] : [BaseAgent.__init__], [_solve_equation], [query]
    - [agents/meta_agent.py] : [MetaAgent.__init__], [_split_questions],
                               [_find_subject], [route]

    Text is modelled as Rocq [string]s, that is, as ASCII text: the
    character predicates of Python ([str.isspace], [str.isdigit],
    [str.lower], the classes [\s], [\w] of [re]) are given on the code
    points 0..127 exactly as CPython defines them there, and the length
    of a string is its number of characters.  Python's own predicates go
    on above 127 (other blanks, digits and letters), so the statements
    that depend on a character class or on a length are made for texts
    that satisfy [str.isascii].

    External collaborators (PDF loader, text splitter, embedding service,
    FAISS index, language model, and the part of [eval]/SymPy outside the
    arithmetic fragment modelled below) are fields of a [Services] record
    or of the agent, exactly as the Python objects hold them.  Similarity
    scores, which are floating-point numbers in Python, are real numbers
    here: the statements about them use the scores only as the values the
    code computes and compares, never a property of exact arithmetic. *)

From Stdlib Require Import String Ascii List ZArith Lia Bool Reals Lra DecimalString.
From stdpp Require Import gmap strings.
Import ListNotations.
Local Open Scope string_scope.
Local Open Scope list_scope.

(* ===================================================================== *)
(** ** Python text primitives on ASCII *)
(* ===================================================================== *)

Module Text.

Definition nl : string := String (ascii_of_nat 10) "".
Definition dquote : string := String (ascii_of_nat 34) "".

(** [str.isspace] on one character: TAB, LF, VT, FF, CR, FS, GS, RS, US
    and the blank. The class [\s] of [re] is the same set. *)
Definition isspace (c : ascii) : bool :=
  let n := nat_of_ascii c in
  (((9 <=? n) && (n <=? 13)) || ((28 <=? n) && (n <=? 32)))%nat.

(** [str.isdigit] on one character; also the range [0-9] of [re]. *)
Definition isdigit (c : ascii) : bool :=
  let n := nat_of_ascii c in ((48 <=? n) && (n <=? 57))%nat.

Definition isupper (c : ascii) : bool :=
  let n := nat_of_ascii c in ((65 <=? n) && (n <=? 90))%nat.

Definition isalpha (c : ascii) : bool :=
  let n := nat_of_ascii c in
  (((65 <=? n) && (n <=? 90)) || ((97 <=? n) && (n <=? 122)))%nat.

(** The class [\w] of [re]: letters, digits and the underscore. *)
Definition is_word (c : ascii) : bool :=
  isalpha c || isdigit c || (nat_of_ascii c =? 95)%nat.

Definition lower_char (c : ascii) : ascii :=
  if isupper c then ascii_of_nat (nat_of_ascii c + 32) else c.

(** [str.lower] *)
Fixpoint lower (s : string) : string :=
  match s with
  | EmptyString => EmptyString
  | String c s' => String (lower_char c) (lower s')
  end.

Definition is_empty (s : string) : bool :=
  match s with EmptyString => true | String _ _ => false end.

(** [needle in hay] *)
Fixpoint contains (needle hay : string) : bool :=
  if String.prefix needle hay then true
  else match hay with
       | EmptyString => false
       | String _ hay' => contains needle hay'
       end.

(** [any(w in s for w in words)] *)
Definition any_in (words : list string) (s : string) : bool :=
  existsb (fun w => contains w s) words.

(** [any(pred(ch) for ch in s)] *)
Fixpoint any_char (p : ascii -> bool) (s : string) : bool :=
  match s with
  | EmptyString => false
  | String c s' => p c || any_char p s'
  end.

(** [str.isascii]: every character is one of the code points 0..127. *)
Definition isascii (s : string) : bool :=
  negb (any_char (fun c => (127 <? nat_of_ascii c)%nat) s).

Fixpoint lstrip (s : string) : string :=
  match s with
  | EmptyString => EmptyString
  | String c s' => if isspace c then lstrip s' else s
  end.

Fixpoint rstrip (s : string) : string :=
  match s with
  | EmptyString => EmptyString
  | String c s' =>
      let r := rstrip s' in
      if is_empty r && isspace c then EmptyString else String c r
  end.

(** [str.strip()] *)
Definition strip (s : string) : string := rstrip (lstrip s).

Fixpoint split_go (cur : string) (s : string) : list string :=
  match s with
  | EmptyString => if is_empty cur then [] else [cur]
  | String c s' =>
      if isspace c
      then (if is_empty cur then split_go "" s' else cur :: split_go "" s')
      else split_go (cur +:+ String c "") s'
  end.

(** [str.split()] with no argument: the maximal runs of non-blank
    characters, in order. *)
Definition split (s : string) : list string := split_go "" s.

(** [sep.join(parts)] *)
Fixpoint join (sep : string) (parts : list string) : string :=
  match parts with
  | [] => ""
  | [p] => p
  | p :: ps => p +:+ sep +:+ join sep ps
  end.

(** [s.replace(old, new)] for a one-character [old]. *)
Fixpoint replace (old : ascii) (new : string) (s : string) : string :=
  match s with
  | EmptyString => EmptyString
  | String c s' =>
      if Ascii.eqb c old then new +:+ replace old new s'
      else String c (replace old new s')
  end.

(** The longest prefix of [s] whose characters satisfy [p], and the rest. *)
Fixpoint span (p : ascii -> bool) (s : string) : string * string :=
  match s with
  | EmptyString => ("", "")
  | String c s' =>
      if p c then let '(a, b) := span p s' in (String c a, b)
      else ("", s)
  end.

(** [set(xs)] as a duplicate-free list, and [len(a & b)]. *)
Definition to_set (xs : list string) : list string := nodup string_dec xs.

Definition mem (x : string) (xs : list string) : bool :=
  existsb (String.eqb x) xs.

Definition inter_size (a b : list string) : nat :=
  List.length (List.filter (fun w => mem w b) a).

(** [xs[-n:]] *)
Definition last_n {A} (n : nat) (xs : list A) : list A :=
  skipn (List.length xs - n) xs.

(** Decimal rendering of an integer, as [str(int)] gives it. *)
Definition str_of_Z (z : Z) : string := NilZero.string_of_int (Z.to_int z).

End Text.

(* ===================================================================== *)
(** ** The arithmetic fragment of Python [eval] and of SymPy [solve] *)
(* ===================================================================== *)

(** [_solve_equation] hands two pieces of the question to [eval] and the
    resulting equation to [sympy.solve].  The strings that reach [eval]
    are made of digits, [x], [+ - * /] and blanks only (the character
    classes of the regular expression allow nothing else).  On those
    strings Python's tokenizer and expression grammar are modelled in
    full; evaluation is modelled for integer literals, the symbol [x],
    unary and binary [+], [-] and [*], and solving for equations that are
    constant or linear in [x].  Everything else (true and floor division,
    powers, higher degrees, line breaks inside the expression, integer
    literals beyond the interpreter's digit limit) is [Beyond] the
    fragment and is left to the [sympy_rest] field of [Services]. *)

Module PyExpr.
Import Text.

(** Outcome of a step of [eval]/[solve] under the [try] of
    [_solve_equation]: a value, a raised exception, or outside the
    modelled fragment.  [Beyond] absorbs [Raises], which absorbs values. *)
Inductive result (A : Type) : Type :=
| Ok (a : A)
| Raises
| Beyond.
Arguments Ok {A} a.
Arguments Raises {A}.
Arguments Beyond {A}.

Definition both {A B C} (f : A -> B -> C) (r1 : result A) (r2 : result B)
  : result C :=
  match r1, r2 with
  | Beyond, _ | _, Beyond => Beyond
  | Raises, _ | _, Raises => Raises
  | Ok a, Ok b => Ok (f a b)
  end.

Definition bind {A B} (r : result A) (k : A -> result B) : result B :=
  match r with
  | Ok a => k a
  | Raises => Raises
  | Beyond => Beyond
  end.

(** *** Tokens *)

Inductive token : Type :=
| TNum (n : Z)
| TName (id : string)
| TPlus | TMinus | TStar | TSlash | TDStar | TDSlash.

(** A token under construction. *)
Inductive pending : Type :=
| PNone
| PNum (digits : string)
| PName (id : string)
| PStar
| PSlash.

Definition digit_val (c : ascii) : Z := Z.of_nat (nat_of_ascii c - 48).

Fixpoint Z_of_digits (acc : Z) (ds : string) : Z :=
  match ds with
  | EmptyString => acc
  | String c ds' => Z_of_digits (10 * acc + digit_val c)%Z ds'
  end.

Definition all_zero (ds : string) : bool :=
  negb (any_char (fun c => negb (Ascii.eqb c "0")) ds).

(** CPython refuses to convert more than 4300 decimal digits between text
    and [int] from version 3.11 on, and does not before: such literals and
    renderings are outside the fragment. *)
Definition max_str_digits : nat := 4300.

(** A decimal literal: a run of zeros, or a run of digits that does not
    start with a zero ([012] is a syntax error). *)
Definition number_token (ds : string) : result (list token) :=
  if (max_str_digits <? String.length ds)%nat then Beyond
  else match ds with
       | String "0" (String _ _) =>
           if all_zero ds then Ok [TNum 0] else Raises
       | _ => Ok [TNum (Z_of_digits 0 ds)]
       end.

Definition flush (p : pending) : result (list token) :=
  match p with
  | PNone => Ok []
  | PNum ds => number_token ds
  | PName id => Ok [TName id]
  | PStar => Ok [TStar]
  | PSlash => Ok [TSlash]
  end.

Definition is_blank (c : ascii) : bool :=
  Ascii.eqb c " " || (nat_of_ascii c =? 9)%nat.

Definition is_name_start (c : ascii) : bool :=
  isalpha c || (nat_of_ascii c =? 95)%nat.

(** The tokenizer, one character at a time, longest match first ([**]
    and [//] before [*] and [/]). *)
Fixpoint lex (p : pending) (s : string) : result (list token) :=
  match s with
  | EmptyString => flush p
  | String c s' =>
      let fresh (_ : unit) :=
        if is_blank c then lex PNone s'
        else if isdigit c then lex (PNum (String c "")) s'
        else if is_name_start c then lex (PName (String c "")) s'
        else if Ascii.eqb c "+" then both (@app token) (Ok [TPlus]) (lex PNone s')
        else if Ascii.eqb c "-" then both (@app token) (Ok [TMinus]) (lex PNone s')
        else if Ascii.eqb c "*" then lex PStar s'
        else if Ascii.eqb c "/" then lex PSlash s'
        else Beyond in
      match p with
      | PNum ds =>
          if isdigit c then lex (PNum (ds +:+ String c "")) s'
          else if is_name_start c then Beyond
          else both (@app token) (flush p) (fresh tt)
      | PName id =>
          if is_word c then lex (PName (id +:+ String c "")) s'
          else both (@app token) (flush p) (fresh tt)
      | PStar =>
          if Ascii.eqb c "*" then both (@app token) (Ok [TDStar]) (lex PNone s')
          else both (@app token) (flush p) (fresh tt)
      | PSlash =>
          if Ascii.eqb c "/" then both (@app token) (Ok [TDSlash]) (lex PNone s')
          else both (@app token) (flush p) (fresh tt)
      | PNone => fresh tt
      end
  end.

(** *** Expressions *)

Inductive binop : Type := Add | Sub | Mul | Div | FloorDiv | Pow.

Inductive expr : Type :=
| ENum (n : Z)
| EName (id : string)
| EPos (e : expr)
| ENeg (e : expr)
| EBin (op : binop) (e1 e2 : expr).

(** [factor: ('+'|'-') factor | power] and [power: atom ['**' factor]] *)
Fixpoint parse_factor (ts : list token) : option (expr * list token) :=
  match ts with
  | TPlus :: r =>
      match parse_factor r with
      | Some (e, r') => Some (EPos e, r')
      | None => None
      end
  | TMinus :: r =>
      match parse_factor r with
      | Some (e, r') => Some (ENeg e, r')
      | None => None
      end
  | TNum n :: TDStar :: r =>
      match parse_factor r with
      | Some (e, r') => Some (EBin Pow (ENum n) e, r')
      | None => None
      end
  | TName id :: TDStar :: r =>
      match parse_factor r with
      | Some (e, r') => Some (EBin Pow (EName id) e, r')
      | None => None
      end
  | TNum n :: r => Some (ENum n, r)
  | TName id :: r => Some (EName id, r)
  | _ => None
  end.

(** [term: factor (('*'|'/'|'//') factor)*], left associative. *)
Fixpoint term_loop (fuel : nat) (acc : expr) (ts : list token)
  : result (expr * list token) :=
  match fuel with
  | O => Beyond
  | S fuel' =>
      let step op r :=
        match parse_factor r with
        | Some (e, r') => term_loop fuel' (EBin op acc e) r'
        | None => Raises
        end in
      match ts with
      | TStar :: r => step Mul r
      | TSlash :: r => step Div r
      | TDSlash :: r => step FloorDiv r
      | _ => Ok (acc, ts)
      end
  end.

Definition parse_term (fuel : nat) (ts : list token)
  : result (expr * list token) :=
  match parse_factor ts with
  | Some (e, r) => term_loop fuel e r
  | None => Raises
  end.

(** [sum: term (('+'|'-') term)*], left associative. *)
Fixpoint sum_loop (fuel : nat) (acc : expr) (ts : list token)
  : result (expr * list token) :=
  match fuel with
  | O => Beyond
  | S fuel' =>
      let step op r :=
        bind (parse_term (S (List.length r)) r)
             (fun '(e, r') => sum_loop fuel' (EBin op acc e) r') in
      match ts with
      | TPlus :: r => step Add r
      | TMinus :: r => step Sub r
      | _ => Ok (acc, ts)
      end
  end.

(** A whole expression: every token must be used. *)
Definition parse (ts : list token) : result expr :=
  let fuel := S (List.length ts) in
  bind (parse_term fuel ts) (fun '(e, r) =>
  bind (sum_loop fuel e r) (fun '(e', r') =>
  match r' with
  | [] => Ok e'
  | _ => Raises
  end)).

(** *** Values: polynomials in [x] with integer coefficients, lowest
    degree first.  A Python [int] is a constant polynomial; SymPy keeps
    sums of monomials collected, so equal polynomials are equal values. *)

Definition poly := list Z.

Fixpoint padd (p q : poly) : poly :=
  match p, q with
  | [], _ => q
  | _, [] => p
  | a :: p', b :: q' => (a + b)%Z :: padd p' q'
  end.

Definition pneg (p : poly) : poly := map Z.opp p.

Definition pscale (c : Z) (p : poly) : poly := map (Z.mul c) p.

Fixpoint pmul (p q : poly) : poly :=
  match p with
  | [] => []
  | a :: p' => padd (pscale a q) (0%Z :: pmul p' q)
  end.

(** Drop the zero coefficients of highest degree. *)
Fixpoint pnorm (p : poly) : poly :=
  match p with
  | [] => []
  | a :: p' =>
      match pnorm p' with
      | [] => if (a =? 0)%Z then [] else [a]
      | r => a :: r
      end
  end.

(** Evaluation with [x = symbols('x')] the only name in scope that is
    spelled with the letters the regular expression lets through. *)
Fixpoint eval_expr (e : expr) : result poly :=
  match e with
  | ENum n => Ok [n]
  | EName id => if String.eqb id "x" then Ok [0%Z; 1%Z] else Raises
  | EPos e1 => eval_expr e1
  | ENeg e1 => bind (eval_expr e1) (fun p => Ok (pneg p))
  | EBin Add e1 e2 => both padd (eval_expr e1) (eval_expr e2)
  | EBin Sub e1 e2 =>
      both (fun p q => padd p (pneg q)) (eval_expr e1) (eval_expr e2)
  | EBin Mul e1 e2 => both pmul (eval_expr e1) (eval_expr e2)
  | EBin _ _ _ => Beyond
  end.

(** The builtin [eval] on a string: leading blanks and tabs are skipped,
    the rest is tokenized, parsed and evaluated. *)
Fixpoint skip_blanks (s : string) : string :=
  match s with
  | EmptyString => EmptyString
  | String c s' => if is_blank c then skip_blanks s' else s
  end.

Definition py_eval (s : string) : result poly :=
  bind (lex PNone (skip_blanks s)) (fun ts =>
  bind (parse ts) eval_expr).


(** *** [solve(Eq(lhs, rhs), x)] *)

(** What [if solution:] and the f-string see of the solution. *)
Inductive solution : Type :=
| Falsy                      (* nothing solves the equation *)
| Truthy (text : string).    (* [str(solution)] *)

(** The rational [n/d] as SymPy prints it. *)
Definition str_of_rational (n d : Z) : string :=
  let g := Z.gcd n d in
  let s := if (d <? 0)%Z then (-1)%Z else 1%Z in
  let n' := (s * n / g)%Z in
  let d' := (s * d / g)%Z in
  if (d' =? 1)%Z then str_of_Z n'
  else str_of_Z n' +:+ "/" +:+ str_of_Z d'.

(** [Eq] of two different numbers is [False], and [solve] of it is empty;
    a linear equation has its one rational root.  [Eq] of equal numbers
    is [True], on which [solve] differs between SymPy versions. *)
Definition sympy_solve (lhs rhs : poly) : result solution :=
  match pnorm (padd lhs (pneg rhs)) with
  | [] => Beyond
  | [_] => Ok Falsy
  | [b; a] =>
      let text := str_of_rational (- b) a in
      if (max_str_digits <? String.length text)%nat then Beyond
      else Ok (Truthy ("[" +:+ text +:+ "]"))
  | _ => Beyond
  end.

End PyExpr.

(* ===================================================================== *)
(** ** [core/memory.py] *)
(* ===================================================================== *)

Module memory.

Inductive MsgType : Type := User | AI.

Definition type_name (t : MsgType) : string :=
  match t with User => "User" | AI => "AI" end.

Record Message : Type := { msg_type : MsgType; content : string }.

Record ChatMemory : Type := { messages : list Message }.

Definition add_user_message (m : ChatMemory) (c : string) : ChatMemory :=
  {| messages := messages m ++ [ {| msg_type := User; content := c |} ] |}.

Definition add_ai_message (m : ChatMemory) (c : string) : ChatMemory :=
  {| messages := messages m ++ [ {| msg_type := AI; content := c |} ] |}.

Record PersistentMemory : Type :=
  { pm_subject : string; chat_memory : ChatMemory }.

(** [PersistentMemory(subject)]: a new, empty log. *)
Definition new_memory (subject : string) : PersistentMemory :=
  {| pm_subject := subject; chat_memory := {| messages := [] |} |}.

Definition load_persistent_memory (subject : string) : PersistentMemory :=
  new_memory subject.

End memory.

(* ===================================================================== *)
(** ** External collaborators and the world they act on *)
(* ===================================================================== *)

Inductive MetaValue : Type := MStr (s : string) | MInt (n : Z).

Record Document : Type :=
  { page_content : string; metadata : gmap string MetaValue }.

(** A FAISS index: the chunks and the vector stored for each. *)
Record VectorDb : Type :=
  { vd_docs : list Document; vd_vectors : list (list R) }.

(** Answer of [llm.invoke]: the text of the reply ([response.content] or
    [str(response)]), or an exception with its message. *)
Inductive LlmOutcome : Type :=
| Reply (text : string)
| Failure (e : string).

Record Services : Type :=
  { (* [PyPDFLoader(path).load()] *)
    pdf_load : string -> list Document;
    (* [RecursiveCharacterTextSplitter(chunk_size, chunk_overlap,
       separators).split_documents(docs)] *)
    split_documents : nat -> nat -> list string -> list Document -> list Document;
    (* [OllamaEmbeddings(model="nomic-embed-text")]: one vector per text *)
    embed_query : string -> list R;
    (* [vectordb.as_retriever(search_type="mmr", k, fetch_k, lambda_mult)
       .invoke(question)] *)
    mmr_search : VectorDb -> string -> nat -> nat -> R -> list Document;
    (* [eval] and [sympy.solve] outside the fragment of [PyExpr], on the
       two sides of the equation: [None] when an exception is raised,
       otherwise what [if solution:] and [str(solution)] see *)
    sympy_rest : string -> string -> option PyExpr.solution;
    (* [f"{confidence:.0%}"] *)
    format_percent : R -> string }.

(** What a run does to its collaborators, in order. *)
Inductive Event : Type :=
| EvPdfLoad (path : string)
| EvPersist (index_path : string) (db : VectorDb)
| EvRetrieve (question : string)
| EvComplete (prompt : string).

(** The directories made, and the index last written at each path by
    [save_local]. *)
Record Disk : Type :=
  { dirs : gset string; saved : gmap string VectorDb }.

Record World : Type := { disk : Disk; trace : list Event }.

(** A call either returns or raises. *)
Inductive outcome (A : Type) : Type :=
| Returned (a : A)
| Raised (exc : string).
Arguments Returned {A} a.
Arguments Raised {A} exc.

(* ===================================================================== *)
(** ** [core/vectorstore.py] *)
(* ===================================================================== *)

Module vectorstore.
Import Text.

(** [os.path.join(a, b)] on POSIX paths. *)
Definition os_path_join (a b : string) : string :=
  if String.prefix "/" b then b
  else if is_empty a then b
  else if String.eqb (String.substring (String.length a - 1) 1 a) "/"
       then a +:+ b
       else a +:+ "/" +:+ b.

(** [meta.setdefault(k, v)] *)
Definition setdefault (k : string) (v : MetaValue)
  (m : gmap string MetaValue) : gmap string MetaValue :=
  match m !! k with
  | Some _ => m
  | None => <[k := v]> m
  end.

(** The loop over [enumerate(chunks)], starting at index [i]. *)
Fixpoint tag_chunks (subject : string) (i : nat) (chunks : list Document)
  : list Document :=
  match chunks with
  | [] => []
  | chunk :: rest =>
      let meta := metadata chunk in
      let meta := setdefault "subject" (MStr subject) meta in
      let meta := setdefault "chunk_id" (MInt (Z.of_nat i)) meta in
      {| page_content := page_content chunk; metadata := meta |}
        :: tag_chunks subject (S i) rest
  end.


(** [FAISS.from_documents(chunks, embeddings)]: one stored vector per
    chunk, the embedding of its text.  The dimension of the index is read
    off the first vector, so an empty list of chunks raises
    [IndexError]. *)
Definition from_documents (sv : Services) (chunks : list Document)
  : outcome VectorDb :=
  match chunks with
  | [] => Raised "IndexError"
  | _ =>
      Returned
        {| vd_docs := chunks;
           vd_vectors := map (fun d => embed_query sv (page_content d)) chunks |}
  end.

(** The directory is made first; the index is saved, and the save
    recorded in the trace, only when [FAISS.from_documents] returns. *)
Definition build_vector_store (sv : Services) (subject : string)
  (docs : list Document) (persist_root : string) (w : World)
  : outcome VectorDb * World :=
  let persist_dir := os_path_join persist_root subject in
  let w1 :=
    {| disk := {| dirs := {[ persist_dir ]} ∪ dirs (disk w);
                  saved := saved (disk w) |};
       trace := trace w |} in
  let chunk_size := if String.eqb (lower subject) "math" then 800 else 400 in
  let chunk_overlap := if String.eqb (lower subject) "math" then 200 else 100 in
  let chunks :=
    split_documents sv chunk_size chunk_overlap
      [nl +:+ nl; nl; ". "; " "; ""] docs in
  let chunks := tag_chunks subject 0 chunks in
  match from_documents sv chunks with
  | Raised e => (Raised e, w1)
  | Returned vectordb =>
      let index_path := os_path_join persist_dir "faiss_index" in
      (Returned vectordb,
       {| disk := {| dirs := dirs (disk w1);
                     saved := <[index_path := vectordb]> (saved (disk w1)) |};
          trace := trace w1 ++ [EvPersist index_path vectordb] |})
  end.

End vectorstore.

(* ===================================================================== *)
(** ** [agents/base_agent.py] *)
(* ===================================================================== *)

Module base_agent.
Import Text PyExpr memory.

Record BaseAgent : Type :=
  { subject : string;
    pdf_path : string;
    llm : string -> LlmOutcome;
    agent_memory : PersistentMemory;
    vectordb : VectorDb }.

(** [BaseAgent.__init__]: load the textbook, refuse an empty one, build
    and save the index; what [build_vector_store] raises goes through. *)
Definition __init__ (sv : Services) (subject pdf_path : string)
  (llm : string -> LlmOutcome) (mem : PersistentMemory) (w : World)
  : outcome BaseAgent * World :=
  let docs := pdf_load sv pdf_path in
  let w1 := {| disk := disk w; trace := trace w ++ [EvPdfLoad pdf_path] |} in
  match docs with
  | [] => (Raised ("No documents found in " +:+ pdf_path), w1)
  | _ =>
      match vectorstore.build_vector_store sv subject docs "./db" w1 with
      | (Raised e, w2) => (Raised e, w2)
      | (Returned db, w2) =>
          (Returned {| subject := subject; pdf_path := pdf_path; llm := llm;
                       agent_memory := mem; vectordb := db |}, w2)
      end
  end.

(** *** The equation shortcut *)

(** The two character classes of
    [([0-9xX\+\-\*/\s]+)=([0-9\+\-\*/\s]+)]. *)
Definition rhs_class (c : ascii) : bool :=
  isdigit c || Ascii.eqb c "+" || Ascii.eqb c "-" || Ascii.eqb c "*"
  || Ascii.eqb c "/" || isspace c.

Definition lhs_class (c : ascii) : bool :=
  Ascii.eqb c "x" || Ascii.eqb c "X" || rhs_class c.

(** A match of the pattern that starts at the head of [s].  Both groups
    are greedy and neither class contains [=], so the first group is the
    whole run of [lhs_class] characters and must be followed by [=]. *)
Definition match_equation_here (s : string) : option (string * string) :=
  let '(g1, rest) := span lhs_class s in
  if is_empty g1 then None
  else match rest with
       | String "=" rest' =>
           let '(g2, _) := span rhs_class rest' in
           if is_empty g2 then None else Some (g1, g2)
       | _ => None
       end.

(** [re.search]: the match at the leftmost position that has one. *)
Fixpoint search_equation (s : string) : option (string * string) :=
  match match_equation_here s with
  | Some m => Some m
  | None =>
      match s with
      | EmptyString => None
      | String _ s' => search_equation s'
      end
  end.

(** Lines 34 to 42, under the [try], on the fragment of [PyExpr]. *)
Definition eval_and_solve (left_expr right_expr : string)
  : result solution :=
  let left_expr := replace "X" "x" left_expr in
  bind (both pair (py_eval (replace "x" "*x" left_expr)) (py_eval right_expr))
       (fun '(l, r) => sympy_solve l r).

Definition solution_text (s : solution) : string :=
  match s with
  | Truthy text => "Solution: x = " +:+ text
  | Falsy => "No real solution found."
  end.

Definition _solve_equation (sv : Services) (subject question : string)
  : option string :=
  if negb (String.eqb (lower subject) "math") then None
  else match search_equation question with
       | None => None
       | Some (left_expr, right_expr) =>
           match eval_and_solve left_expr right_expr with
           | Ok s => Some (solution_text s)
           | Raises => None
           | Beyond =>
               match sympy_rest sv left_expr right_expr with
               | Some s => Some (solution_text s)
               | None => None
               end
           end
       end.

(** *** The subject gate *)

Definition math_keywords : list string :=
  [ "x"; "y"; "z"; "equation"; "solve"; "calculate"; "value"; "algebra";
    "add"; "subtract"; "multiply"; "divide"; "number"; "sum"; "difference";
    "product"; "quotient"; "fraction"; "decimal"; "percentage"; "ratio";
    "area"; "perimeter"; "volume"; "square"; "cube"; "root"; "power";
    "how many"; "how much"; "total"; "altogether"; "left"; "more"; "less";
    "times"; "divided"; "plus"; "minus"; "equal"; "greater"; "smaller";
    "digit"; "place value"; "round"; "estimate"; "measure"; "length";
    "width"; "height"; "math"; "maths"; "mathematics"; "problem" ].

Definition generic_words : list string :=
  [ "what is"; "explain"; "tell me"; "describe" ].

Definition english_keywords : list string :=
  [ "read"; "reading"; "grammar"; "vocabulary"; "writing"; "poem";
    "literature"; "word"; "sentence"; "story"; "noun"; "verb"; "adjective";
    "paragraph" ].

Definition evs_keywords : list string :=
  [ "environment"; "plant"; "animal"; "season"; "pollution"; "conservation";
    "resource"; "nature"; "earth"; "water"; "air"; "living"; "non-living" ].

(** Lines 53 to 77: [Some response] when the Math branch returns. *)
Definition math_gate (subject question : string) : option string :=
  let q_lower := lower question in
  if String.eqb (lower subject) "math" then
    let has_math_keyword := any_in math_keywords q_lower in
    let has_numbers := any_char isdigit question in
    if negb has_math_keyword && negb has_numbers then
      if any_in generic_words q_lower
         && (List.length (split question) <? 10)%nat
      then Some "Sorry, I can only answer Math questions."
      else None
    else None
  else None.

(** Lines 79 to 84. *)
Definition english_gate (subject question : string) : option string :=
  let q_lower := lower question in
  if String.eqb (lower subject) "english" then
    if negb (any_in english_keywords q_lower)
    then Some "Sorry, I can only answer English questions."
    else None
  else None.

(** Lines 86 to 91. *)
Definition evs_gate (subject question : string) : option string :=
  let q_lower := lower question in
  if String.eqb (lower subject) "evs" then
    if negb (any_in evs_keywords q_lower)
    then Some "Sorry, I can only answer EVS questions."
    else None
  else None.

(** The three blocks in the order of the source. *)
Definition subject_gate (subject question : string) : option string :=
  match math_gate subject question with
  | Some r => Some r
  | None =>
      match english_gate subject question with
      | Some r => Some r
      | None => evs_gate subject question
      end
  end.

(** *** Retrieval, prompt and grounding *)

Definition no_information (subject : string) : string :=
  "Sorry, I don't have information on this topic in the " +:+ subject
  +:+ " textbook.".

Definition cannot_find (subject : string) : string :=
  "I cannot find this information in the " +:+ subject +:+ " textbook.".

(** [not docs or all(len(d.page_content.strip()) < 30 for d in docs)] *)
Definition not_meaningful (docs : list Document) : bool :=
  match docs with
  | [] => true
  | _ => forallb (fun d => (String.length (strip (page_content d)) <? 30)%nat)
                 docs
  end.

Definition history_line (m : Message) : string :=
  type_name (msg_type m) +:+ ": " +:+ content m.

Definition build_prompt (subject context history question : string)
  : string :=
  join nl
    [ "";
      "You are a helpful " +:+ subject
        +:+ " teacher for elementary school students.";
      "";
      "INSTRUCTIONS:";
      "1. Read the Textbook Context below carefully";
      "2. Answer the question using ONLY information from the Textbook Context";
      "3. If you find the answer in the context, explain it clearly in simple language";
      "4. If the exact answer is NOT in the context, say: " +:+ dquote
        +:+ "I cannot find this information in the textbook." +:+ dquote;
      "5. Use examples from the textbook when available";
      "6. Keep your answer suitable for elementary students";
      "";
      "Textbook Context:";
      context;
      "";
      "Chat History:";
      history;
      "";
      "Student Question:";
      question;
      "";
      "Your Answer:";
      "" ].

(** [set([w for w in text.lower().split() if len(w) > 3])] *)
Definition long_words (text : string) : list string :=
  to_set (List.filter (fun w => (3 <? String.length w)%nat) (split (lower text))).

(** Lines 163 to 180.  [overlap / len(response_words) < 0.10] compares
    two doubles; for fewer than 10^16 words it holds exactly when
    [10 * overlap < len(response_words)]. *)
Definition grounded (subject context response : string) : string :=
  if (400 <? String.length response)%nat
     && negb (contains "cannot find" (lower response))
  then
    let response_words := long_words response in
    let context_words := long_words context in
    match response_words, context_words with
    | _ :: _, _ :: _ =>
        let overlap := inter_size response_words context_words in
        if (10 * overlap <? List.length response_words)%nat
        then cannot_find subject
        else response
    | _, _ => response
    end
  else response.

(** *** [BaseAgent.query] *)

Record QueryRun : Type :=
  { answer : string;
    memory_after : PersistentMemory;
    calls : list Event }.

Definition remember (m : PersistentMemory) (f : ChatMemory -> ChatMemory)
  : PersistentMemory :=
  {| pm_subject := pm_subject m; chat_memory := f (chat_memory m) |}.

(** The early returns: record the response and give it back. *)
Definition respond (m : PersistentMemory) (response : string)
  (calls : list Event) : QueryRun :=
  {| answer := response;
     memory_after := remember m (fun cm => add_ai_message cm response);
     calls := calls |}.

Definition query (sv : Services) (self : BaseAgent) (question : string)
  : QueryRun :=
  let m := remember (agent_memory self)
                    (fun cm => add_user_message cm question) in
  match subject_gate (subject self) question with
  | Some response => respond m response []
  | None =>
      match _solve_equation sv (subject self) question with
      | Some (String c s) => respond m (String c s) []
      | _ =>
          let docs := mmr_search sv (vectordb self) question 5 20 (1 / 2)%R in
          if not_meaningful docs then
            respond m (no_information (subject self)) [EvRetrieve question]
          else
            let context := join (nl +:+ nl) (map page_content docs) in
            let history :=
              join nl (map history_line
                           (last_n 10 (messages (chat_memory m)))) in
            let prompt :=
              build_prompt (subject self) context history question in
            let response :=
              match llm self prompt with
              | Reply text => grounded (subject self) context (strip text)
              | Failure e => "Error from model: " +:+ e
              end in
            respond m response [EvRetrieve question; EvComplete prompt]
      end
  end.

End base_agent.

(* ===================================================================== *)
(** ** [agents/meta_agent.py] *)
(* ===================================================================== *)

Module meta_agent.
Import Text memory base_agent.

Record MetaAgent : Type :=
  { agents : gmap string BaseAgent;
    subject_vectors : list (string * list R) }.

Definition subject_texts : list (string * string) :=
  [ ("Math", "algebra, geometry, arithmetic, fractions, equations, problem solving, numbers, calculation, formulas");
    ("English", "grammar, vocabulary, reading, writing, comprehension, literature, stories, poems, sentences");
    ("EVS", "environment, plants, animals, seasons, weather, community, safety, nature, conservation, resources") ].

(** [MetaAgent.__init__]: the reference vector of every subject is
    computed once, by the embedding service. *)
Definition __init__ (sv : Services) (agents : gmap string BaseAgent)
  : MetaAgent :=
  {| agents := agents;
     subject_vectors :=
       map (fun '(k, v) => (k, embed_query sv v)) subject_texts |}.

(** *** [_split_questions] *)

(** [\band\b] at the head of [s], where [prev_word] tells whether the
    character before [s] is a word character: [and] must not follow a
    word character and must not be followed by one. *)
Definition and_here (prev_word : bool) (s : string) : bool :=
  negb prev_word
  && match s with
     | String c1 (String c2 (String c3 rest)) =>
         Ascii.eqb c1 "a" && Ascii.eqb c2 "n" && Ascii.eqb c3 "d"
         && match rest with
            | EmptyString => true
            | String c _ => negb (is_word c)
            end
     | _ => false
     end.

(** [re.split(r"\?|\band\b|\n", text)]: the pieces between the matches,
    taken from left to right.  [skip] counts the characters of a matched
    [and] still to be passed over, [cur] is the piece being read. *)
Fixpoint re_split_go (skip : nat) (prev_word : bool) (cur : string)
  (s : string) : list string :=
  match s with
  | EmptyString => [cur]
  | String c s' =>
      match skip with
      | S k => re_split_go k (is_word c) cur s'
      | O =>
          if Ascii.eqb c "?" then cur :: re_split_go 0 false "" s'
          else if and_here prev_word s then cur :: re_split_go 2 true "" s'
          else if Ascii.eqb c (ascii_of_nat 10)
               then cur :: re_split_go 0 false "" s'
          else re_split_go 0 (is_word c) (cur +:+ String c "") s'
      end
  end.

Definition re_split (text : string) : list string :=
  re_split_go 0 false "" text.

(** [[p.strip() for p in parts if p.strip()]] *)
Definition stripped_parts (parts : list string) : list string :=
  map strip (List.filter (fun p => negb (is_empty (strip p))) parts).

Definition _split_questions (text : string) : list string :=
  stripped_parts (re_split text).

(** *** [_find_subject] *)

Fixpoint dot (u v : list R) : R :=
  match u, v with
  | a :: u', b :: v' => (a * b + dot u' v')%R
  | _, _ => 0%R
  end.

(** [np.dot] on two vectors raises [ValueError] when their lengths
    differ. *)
Definition np_dot (u v : list R) : option R :=
  if (List.length u =? List.length v)%nat then Some (dot u v) else None.

(** [np.linalg.norm] *)
Definition norm (u : list R) : R := sqrt (dot u u).

Definition cosine (q_vec vec : list R) : option R :=
  match np_dot q_vec vec with
  | Some d => Some (d / (norm q_vec * norm vec))%R
  | None => None
  end.

(** The dictionary comprehension [sims], in the order of the keys. *)
Fixpoint similarities (q_vec : list R) (vectors : list (string * list R))
  : option (list (string * R)) :=
  match vectors with
  | [] => Some []
  | (subj, vec) :: rest =>
      match cosine q_vec vec with
      | None => None
      | Some s =>
          match similarities q_vec rest with
          | None => None
          | Some sims => Some ((subj, s) :: sims)
          end
      end
  end.

(** [max(sims, key=sims.get)]: a later key wins only with a strictly
    greater score. *)
Fixpoint max_from (best : string * R) (sims : list (string * R))
  : string * R :=
  match sims with
  | [] => best
  | (subj, s) :: rest =>
      if Rgt_dec s (snd best) then max_from (subj, s) rest
      else max_from best rest
  end.

Definition max_by_score (sims : list (string * R)) : option (string * R) :=
  match sims with
  | [] => None
  | first :: rest => Some (max_from first rest)
  end.

(** [None] when the similarity computation raises. *)
Definition _find_subject (sv : Services) (self : MetaAgent)
  (question : string) : option (string * R) :=
  let q_vec := embed_query sv question in
  match similarities q_vec (subject_vectors self) with
  | None => None
  | Some sims =>
      match max_by_score sims with
      | None => None
      | Some best =>
          let best_subject := fst best in
          let confidence := snd best in
          let q_lower := lower question in
          if contains "math" q_lower || contains "solve" q_lower
             || contains "equation" q_lower || contains "calculate" q_lower
          then Some ("Math", 1%R)
          else if contains "english" q_lower || contains "read" q_lower
                  || contains "grammar" q_lower
                  || contains "literature" q_lower
          then Some ("English", 1%R)
          else if contains "evs" q_lower || contains "plant" q_lower
                  || contains "environment" q_lower
                  || contains "season" q_lower
          then Some ("EVS", 1%R)
          else Some (best_subject, confidence)
      end
  end.

(** *** [route] *)

Definition utf8 (bytes : list nat) : string :=
  fold_right (fun b s => String (ascii_of_nat b) s) "" bytes.

Definition green_circle : string := utf8 [240; 159; 159; 162].
Definition yellow_circle : string := utf8 [240; 159; 159; 161].
Definition red_circle : string := utf8 [240; 159; 148; 180].

Definition confidence_emoji (confidence : R) : string :=
  if Rgt_dec confidence (7 / 10) then green_circle
  else if Rgt_dec confidence (5 / 10) then yellow_circle
  else red_circle.

Definition not_available (subject : string) : string :=
  "**Error**: " +:+ subject +:+ " subject not available. Please upload the PDF.".

Definition annotated (sv : Services) (subject : string) (confidence : R)
  (ans : string) : string :=
  confidence_emoji confidence +:+ " **" +:+ subject
  +:+ " Answer** (confidence: " +:+ format_percent sv confidence +:+ "):"
  +:+ nl +:+ ans.

(** The body of the [for] loop, over the sub-questions still to do. *)
Fixpoint route_loop (sv : Services) (self : MetaAgent)
  (sub_questions : list string) (answers : list string) (w : World)
  : outcome (list string) * World :=
  match sub_questions with
  | [] => (Returned answers, w)
  | sub_q :: rest =>
      match _find_subject sv self sub_q with
      | None => (Raised "ValueError", w)
      | Some (subject, confidence) =>
          match agents self !! subject with
          | None =>
              route_loop sv self rest (answers ++ [not_available subject]) w
          | Some registered =>
              match base_agent.__init__ sv subject (pdf_path registered)
                      (llm registered) (new_memory subject) w with
              | (Raised e, w1) => (Raised e, w1)
              | (Returned temp_agent, w1) =>
                  let run := query sv temp_agent sub_q in
                  let w2 := {| disk := disk w1;
                               trace := trace w1 ++ calls run |} in
                  route_loop sv self rest
                    (answers ++ [annotated sv subject confidence (answer run)])
                    w2
              end
          end
      end
  end.

Definition route (sv : Services) (self : MetaAgent) (question : string)
  (w : World) : outcome string * World :=
  let sub_questions := _split_questions question in
  match route_loop sv self sub_questions [] w with
  | (Returned answers, w') =>
      (Returned (join (nl +:+ nl +:+ "---" +:+ nl +:+ nl) answers), w')
  | (Raised e, w') => (Raised e, w')
  end.

End meta_agent.

(* ===================================================================== *)
(** ** The claims in the words of the specification *)
(* ===================================================================== *)

Module spec.
Import Text memory base_agent.

(** "Q fails S's keyword gate", as the specification words it, for the
    three subjects of the application. *)
Definition fails_keyword_gate (S Q : string) : bool :=
  if String.eqb S "Math" then
    negb (any_in math_keywords (lower Q))
    && negb (any_char isdigit Q)
    && any_in generic_words (lower Q)
    && (List.length (split Q) <? 10)%nat
  else if String.eqb S "English" then negb (any_in english_keywords (lower Q))
  else if String.eqb S "EVS" then negb (any_in evs_keywords (lower Q))
  else false.

(** "Sorry, I can only answer {S} questions." *)
Definition refusal (S : string) : string :=
  "Sorry, I can only answer " +:+ S +:+ " questions.".

(** The log after a call that recorded the question and one answer. *)
Definition logged (before : PersistentMemory) (question response : string)
  : list Message :=
  messages (chat_memory before)
  ++ [ {| msg_type := User; content := question |};
       {| msg_type := AI; content := response |} ].

(** "The ratio of R's words longer than 3 characters that also occur in
    C's word set to all such words of R is below 0.10." *)
Definition overlap_below_tenth (R C : string) : Prop :=
  let r_words := long_words R in
  let c_words := to_set (split (lower C)) in
  (10 * inter_size r_words c_words < List.length r_words)%nat.

End spec.

(* ===================================================================== *)
(** ** Concrete collaborators, for the examples *)
(* ===================================================================== *)

Module fixtures.
Import Text PyExpr memory base_agent.

Definition page (text : string) : Document :=
  {| page_content := text; metadata := ∅ |}.

(** A retriever that always finds [docs], a splitter that keeps pages
    whole, an embedding with one coordinate. *)
Definition services (docs : list Document) : Services :=
  {| pdf_load := fun _ => [page "Plants need water and sunlight to grow."];
     split_documents := fun _ _ _ ds => ds;
     embed_query := fun _ => [1%R];
     mmr_search := fun _ _ _ _ _ => docs;
     sympy_rest := fun _ _ => None;
     format_percent := fun _ => "100%" |}.

Definition empty_db : VectorDb := {| vd_docs := []; vd_vectors := [] |}.

(** An agent of [subject] whose language model always answers [reply]. *)
Definition agent (subject reply : string) : BaseAgent :=
  {| subject := subject;
     pdf_path := "./textbooks/book.pdf";
     llm := fun _ => Reply reply;
     agent_memory := new_memory subject;
     vectordb := empty_db |}.

Fixpoint repeat_text (n : nat) (s : string) : string :=
  match n with
  | O => ""
  | S n' => s +:+ repeat_text n' s
  end.

(** A reply of 485 characters made of one word. *)
Definition zebras : string := repeat_text 80 "zebra " +:+ "zebra".

(** A page of 39 characters with no word longer than 3 characters. *)
Definition short_words : string := "a b c d e f g h i j k l m n o p q r s t".

(** An embedding service that sends the word [hello] opposite to every
    other text. *)
Definition opposed : Services :=
  {| pdf_load := fun _ => [page "Plants need water and sunlight to grow."];
     split_documents := fun _ _ _ ds => ds;
     embed_query :=
       fun s => if String.eqb s "hello" then [(-1)%R] else [1%R];
     mmr_search := fun _ _ _ _ _ => [];
     sympy_rest := fun _ _ => None;
     format_percent := fun _ => "" |}.

(** A router with agents for Math and EVS, and an untouched world. *)
Definition registry : gmap string BaseAgent :=
  <["Math" := agent "Math" ""]> (<["EVS" := agent "EVS" ""]> ∅).

Definition new_world : World :=
  {| disk := {| dirs := ∅; saved := ∅ |}; trace := [] |}.

(** An agent whose language model fails with the message [e]. *)
Definition failing_agent (subject e : string) : BaseAgent :=
  {| subject := subject;
     pdf_path := "./textbooks/book.pdf";
     llm := fun _ => Failure e;
     agent_memory := new_memory subject;
     vectordb := empty_db |}.

(** A page whose metadata already names a subject. *)
Definition tagged_page : Document :=
  {| page_content := "Fractions.";
     metadata := <["subject" := MStr "Arithmetic"]> ∅ |}.

(** An embedding service that gives one text two coordinates and every
    other text one. *)
Definition ragged : Services :=
  {| pdf_load := fun _ => [page "Plants need water and sunlight to grow."];
     split_documents := fun _ _ _ ds => ds;
     embed_query :=
       fun s => if String.eqb s "solve x" then [1%R; 1%R] else [1%R];
     mmr_search := fun _ _ _ _ _ => [];
     sympy_rest := fun _ _ => None;
     format_percent := fun _ => "" |}.

(** Collaborators whose PDF loader finds no page. *)
Definition no_pages : Services :=
  {| pdf_load := fun _ => [];
     split_documents := fun _ _ _ ds => ds;
     embed_query := fun _ => [1%R];
     mmr_search := fun _ _ _ _ _ => [];
     sympy_rest := fun _ _ => None;
     format_percent := fun _ => "" |}.

(** An EVS agent with twelve messages in its log. *)
Definition talkative : BaseAgent :=
  {| subject := "EVS";
     pdf_path := "./textbooks/evs.pdf";
     llm := fun _ => Reply "Into the soil.";
     agent_memory :=
       {| pm_subject := "EVS";
          chat_memory :=
            {| messages :=
                 map (fun n => {| msg_type := if Nat.even n then User else AI;
                                  content := str_of_Z (Z.of_nat n) |})
                     (seq 0 12) |} |};
     vectordb := empty_db |}.

End fixtures.

Import Text PyExpr memory base_agent meta_agent.

(** ** Vocabulary for the runs of [query] *)

(** The memory once the question is recorded. *)
Definition asked (self : BaseAgent) (question : string) : PersistentMemory :=
  remember (agent_memory self) (fun cm => add_user_message cm question).

Definition retrieved (sv : Services) (self : BaseAgent) (q : string)
  : list Document :=
  mmr_search sv (vectordb self) q 5 20 (1 / 2)%R.

Definition context_of (docs : list Document) : string :=
  join (nl +:+ nl) (map page_content docs).

Definition prompt_of (self : BaseAgent) (q : string) (docs : list Document)
  : string :=
  build_prompt (subject self) (context_of docs)
    (join nl (map history_line
                  (last_n 10 (messages (chat_memory (asked self q))))))
    q.

(** ** Vocabulary for [_split_questions] *)

Definition newline : ascii := ascii_of_nat 10.

(** The two one-character separators. *)
Definition is_mark_or_newline (c : ascii) : bool :=
  Ascii.eqb c "?" || Ascii.eqb c newline.

(** [b] is empty or starts with a character outside words. *)
Definition starts_outside_word (b : string) : bool :=
  match b with
  | EmptyString => true
  | String c _ => negb (is_word c)
  end.

(** [a] is empty or ends with a character outside words. *)
Fixpoint ends_outside_word (a : string) : bool :=
  match a with
  | EmptyString => true
  | String c EmptyString => negb (is_word c)
  | String _ a' => ends_outside_word a'
  end.

(** No character of [s] is blank. *)
Definition blank (s : string) : bool := is_empty (strip s).

(** Every [and] of [text] touches a word character (a letter, a digit or
    the underscore) on one side at least. *)
Definition attached_ands (text : string) : Prop :=
  forall a b,
    text = a +:+ "and" +:+ b ->
    ends_outside_word a = false \/ starts_outside_word b = false.

(** ** Vocabulary for the runs of [route] *)





(** What [build_vector_store] hands to the splitter for [subject]. *)
Definition chunks_of (sv : Services) (subject : string)
  (docs : list Document) : list Document :=
  split_documents sv
    (if String.eqb (lower subject) "math" then 800 else 400)
    (if String.eqb (lower subject) "math" then 200 else 100)
    [nl +:+ nl; nl; ". "; " "; ""] docs.



(** The four Math terms of the override. *)
Definition says_math (q : string) : Prop :=
  contains "math" (lower q) = true \/ contains "solve" (lower q) = true
  \/ contains "equation" (lower q) = true
  \/ contains "calculate" (lower q) = true.

(** A question that passed the gate and for which the equation shortcut
    gave nothing. *)
Definition reaches_retrieval (sv : Services) (self : BaseAgent)
  (q : string) : Prop :=
  subject_gate (subject self) q = None
  /\ (_solve_equation sv (subject self) q = None
      \/ _solve_equation sv (subject self) q = Some "").

(** The letters and digits that open the Math gate. *)
Definition opens_math_gate (q : string) : Prop :=
  contains "x" (lower q) = true \/ contains "y" (lower q) = true
  \/ contains "z" (lower q) = true \/ any_char isdigit q = true.

(** ** Vocabulary for the equation pattern *)

(** Every character of [s] satisfies [p]. *)
Definition all_char (p : ascii -> bool) (s : string) : bool :=
  negb (any_char (fun c => negb (p c)) s).

(** [s] is empty or its first character fails [p]. *)
Definition stops_at (p : ascii -> bool) (s : string) : bool :=
  match s with
  | EmptyString => true
  | String c _ => negb (p c)
  end.

(** [s] is empty or its last character fails [p]. *)
Fixpoint ends_before (p : ascii -> bool) (s : string) : bool :=
  match s with
  | EmptyString => true
  | String c EmptyString => negb (p c)
  | String _ s' => ends_before p s'
  end.

(** ** Vocabulary for the tokens *)



(** ** Vocabulary for classification *)




(** The embedding of [q] is as long as the vector [v]. *)
Definition same_length (sv : Services) (q : string) (v : string * list R)
  : Prop :=
  List.length (snd v) = List.length (embed_query sv q).

(** ** Vocabulary for the answers of [route] *)




(** A blank or a question mark. *)
Definition blank_or_mark (c : ascii) : bool :=
  isspace c || Ascii.eqb c "?".

(** ** Vocabulary for the equations that are not solved *)

(** The characters of a left-hand side written on one line: those of the
    pattern, with no other blank than the space and the tab. *)
Definition one_line (c : ascii) : bool :=
  isdigit c || Ascii.eqb c "x" || Ascii.eqb c "X" || Ascii.eqb c "+"
  || Ascii.eqb c "-" || Ascii.eqb c "*" || Ascii.eqb c "/" || is_blank c.

(** The digits read so far of a number under construction. *)
Definition pending_digits (p : pending) : nat :=
  match p with
  | PNum ds => String.length ds
  | _ => 0
  end.

(** [s] starts with the letter x, small or capital. *)
Definition starts_with_x (s : string) : bool :=
  match s with
  | String c _ => Ascii.eqb c "x" || Ascii.eqb c "X"
  | EmptyString => false
  end.

(* ===================================================================== *)
(** * Properties *)
(* ===================================================================== *)

(** ** The branches of [query] *)

Lemma respond_log self q r cs :
  messages (chat_memory (memory_after (respond (asked self q) r cs)))
  = spec.logged (agent_memory self) q r.
Proof.
  unfold respond, asked, remember, spec.logged; simpl.
  now rewrite <- app_assoc.
Qed.

Lemma query_refused sv self q r :
  subject_gate (subject self) q = Some r ->
  query sv self q = respond (asked self q) r [].
Proof. intros H. unfold query. now rewrite H. Qed.

Lemma query_solved sv self q c s :
  subject_gate (subject self) q = None ->
  _solve_equation sv (subject self) q = Some (String c s) ->
  query sv self q = respond (asked self q) (String c s) [].
Proof. intros Hg Hs. unfold query. now rewrite Hg, Hs. Qed.

Lemma query_no_information sv self q :
  reaches_retrieval sv self q ->
  not_meaningful (retrieved sv self q) = true ->
  query sv self q
  = respond (asked self q) (no_information (subject self)) [EvRetrieve q].
Proof.
  intros [Hg Hs] Hd. unfold query, retrieved in *. rewrite Hg.
  destruct Hs as [-> | ->]; now rewrite Hd.
Qed.

Lemma query_completed sv self q :
  reaches_retrieval sv self q ->
  not_meaningful (retrieved sv self q) = false ->
  query sv self q
  = respond (asked self q)
      (match llm self (prompt_of self q (retrieved sv self q)) with
       | Reply text =>
           grounded (subject self) (context_of (retrieved sv self q))
                    (strip text)
       | Failure e => "Error from model: " +:+ e
       end)
      [EvRetrieve q; EvComplete (prompt_of self q (retrieved sv self q))].
Proof.
  intros [Hg Hs] Hd. unfold query, retrieved, prompt_of, context_of, asked in *.
  rewrite Hg. destruct Hs as [-> | ->]; now rewrite Hd.
Qed.

(** Every run of [query] is one of the four. *)
Lemma query_cases sv self q :
  (exists r, subject_gate (subject self) q = Some r
             /\ query sv self q = respond (asked self q) r [])
  \/ (exists c s, subject_gate (subject self) q = None
             /\ _solve_equation sv (subject self) q = Some (String c s)
             /\ query sv self q = respond (asked self q) (String c s) [])
  \/ (reaches_retrieval sv self q
      /\ not_meaningful (retrieved sv self q) = true)
  \/ (reaches_retrieval sv self q
      /\ not_meaningful (retrieved sv self q) = false).
Proof.
  destruct (subject_gate (subject self) q) as [r|] eqn:Hg.
  - left. exists r. split; [reflexivity | now apply query_refused].
  - right.
    destruct (_solve_equation sv (subject self) q) as [[|c s]|] eqn:Hs.
    + right. unfold reaches_retrieval. rewrite Hg, Hs.
      destruct (not_meaningful (retrieved sv self q)); auto.
    + left. exists c, s. repeat split; try assumption.
      now apply query_solved.
    + right. unfold reaches_retrieval. rewrite Hg, Hs.
      destruct (not_meaningful (retrieved sv self q)); auto.
Qed.

Lemma not_meaningful_spec docs :
  not_meaningful docs = true <->
  docs = []
  \/ Forall (fun d => (String.length (strip (page_content d)) < 30)%nat) docs.
Proof.
  unfold not_meaningful. destruct docs as [|d ds]; [intuition |].
  rewrite List.forallb_forall, List.Forall_forall. split.
  - intros H. right. intros x Hx. apply Nat.ltb_lt. now apply H.
  - intros [H | H] x Hx; [discriminate |]. apply Nat.ltb_lt. now apply H.
Qed.

(** ** The subject gate *)

Lemma gate_of_math subject q :
  lower subject = "math" ->
  subject_gate subject q = math_gate subject q.
Proof.
  intros E. unfold subject_gate, english_gate, evs_gate. rewrite E.
  destruct (String.eqb_spec "math" "english"); [discriminate |].
  destruct (String.eqb_spec "math" "evs"); [discriminate |].
  now destruct (math_gate subject q).
Qed.

Lemma gate_of_english subject q :
  lower subject = "english" ->
  subject_gate subject q = english_gate subject q.
Proof.
  intros E. unfold subject_gate, math_gate, evs_gate. rewrite E.
  destruct (String.eqb_spec "english" "math"); [discriminate |].
  destruct (String.eqb_spec "english" "evs"); [discriminate |].
  now destruct (english_gate subject q).
Qed.

Lemma gate_of_evs subject q :
  lower subject = "evs" ->
  subject_gate subject q = evs_gate subject q.
Proof.
  intros E. unfold subject_gate, math_gate, english_gate. rewrite E.
  destruct (String.eqb_spec "evs" "math"); [discriminate |].
  destruct (String.eqb_spec "evs" "english"); [discriminate |].
  reflexivity.
Qed.

Lemma math_gate_rejects subject q :
  lower subject = "math" ->
  any_in math_keywords (lower q) = false ->
  any_char isdigit q = false ->
  any_in generic_words (lower q) = true ->
  (List.length (split q) <? 10)%nat = true ->
  math_gate subject q = Some "Sorry, I can only answer Math questions.".
Proof.
  intros E Hk Hd Hg Hw. unfold math_gate. rewrite E, Hk, Hd, Hg, Hw.
  reflexivity.
Qed.

Lemma math_gate_inv subject q r :
  math_gate subject q = Some r ->
  r = "Sorry, I can only answer Math questions."
  /\ lower subject = "math"
  /\ any_in math_keywords (lower q) = false
  /\ any_char isdigit q = false
  /\ any_in generic_words (lower q) = true
  /\ (List.length (split q) < 10)%nat.
Proof.
  unfold math_gate.
  destruct (String.eqb_spec (lower subject) "math") as [E|]; [|discriminate].
  destruct (any_in math_keywords (lower q)); [discriminate |].
  destruct (any_char isdigit q); [discriminate |]. cbn [negb andb].
  destruct (any_in generic_words (lower q)); [|discriminate]. cbn [andb].
  destruct (Nat.ltb_spec (List.length (split q)) 10); [|discriminate].
  intros [= <-]. repeat split; assumption.
Qed.

(** C1: for each of the three subjects S, every agent of S (its subject
    is S, in whatever letter case the code compares it) and every
    question Q in ASCII that fails S's keyword gate, [query] returns
    exactly "Sorry, I can only answer S questions.", the log grows by the
    question and exactly one Assistant message carrying that refusal, and
    neither the retrieval index nor the completion service is called. *)
Theorem C1_gate_refusal (sv : Services) (self : BaseAgent) (S Q : string) :
  lower (subject self) = lower S ->
  isascii Q = true ->
  spec.fails_keyword_gate S Q = true ->
  answer (query sv self Q) = spec.refusal S
  /\ messages (chat_memory (memory_after (query sv self Q)))
     = spec.logged (agent_memory self) Q (spec.refusal S)
  /\ calls (query sv self Q) = [].
Proof.
  intros ES _ H.
  assert (Hg : subject_gate (subject self) Q = Some (spec.refusal S)).
  { unfold spec.fails_keyword_gate in H.
    destruct (String.eqb_spec S "Math") as [E|_].
    { subst S. apply andb_prop in H as [H Hw].
      apply andb_prop in H as [H Hg]. apply andb_prop in H as [Hk Hd].
      apply negb_true_iff in Hk, Hd.
      rewrite gate_of_math by exact ES.
      now apply math_gate_rejects. }
    destruct (String.eqb_spec S "English") as [E|_].
    { subst S. rewrite gate_of_english by exact ES.
      unfold english_gate. rewrite ES, H. reflexivity. }
    destruct (String.eqb_spec S "EVS") as [E|_]; [|discriminate].
    subst S. rewrite gate_of_evs by exact ES.
    unfold evs_gate. rewrite ES, H. reflexivity. }
  rewrite (query_refused sv self Q _ Hg).
  split; [reflexivity |]. split; [apply respond_log | reflexivity].
Qed.

(** A question that the Math gate turns away. *)
Lemma C1_gate_refusal_witness :
  spec.fails_keyword_gate "Math" "what is a dog" = true
  /\ answer (query (fixtures.services []) (fixtures.agent "Math" "")
                   "what is a dog")
     = "Sorry, I can only answer Math questions.".
Proof.
  split; [reflexivity |].
  apply (C1_gate_refusal (fixtures.services []) (fixtures.agent "Math" "")
                         "Math" "what is a dog");
    reflexivity.
Defined.

(** ** Answers that can only come from one place *)



(** C8: when retrieval is reached and returns no chunk, or only chunks
    whose trimmed text is shorter than 30 characters, [query] returns
    "Sorry, I don't have information on this topic in the {subject}
    textbook.", records it as the one Assistant message, and the
    completion service is never called: the only collaborator call of the
    run is the retrieval. *)
Theorem C8_no_information (sv : Services) (self : BaseAgent) (q : string) :
  In (EvRetrieve q) (calls (query sv self q)) ->
  (retrieved sv self q = []
   \/ Forall (fun d => (String.length (strip (page_content d)) < 30)%nat)
             (retrieved sv self q)) ->
  answer (query sv self q)
  = "Sorry, I don't have information on this topic in the "
    +:+ subject self +:+ " textbook."
  /\ messages (chat_memory (memory_after (query sv self q)))
     = spec.logged (agent_memory self) q (no_information (subject self))
  /\ calls (query sv self q) = [EvRetrieve q]
  /\ (forall prompt, ~ In (EvComplete prompt) (calls (query sv self q))).
Proof.
  intros Hin Hdocs. apply not_meaningful_spec in Hdocs.
  destruct (query_cases sv self q)
    as [(r & _ & E) | [(c & s & _ & _ & E) | [[Hr Hd] | [_ Hd]]]].
  - rewrite E in Hin. destruct Hin.
  - rewrite E in Hin. destruct Hin.
  - rewrite (query_no_information sv self q Hr Hd).
    split; [reflexivity |]. split; [apply respond_log |].
    split; [reflexivity |].
    intros prompt [H | []]. discriminate H.
  - congruence.
Qed.

(** An EVS question about water, and an index that finds only a stub. *)
Lemma C8_no_information_witness :
  answer (query (fixtures.services [fixtures.page "  Chapter 3  "])
                (fixtures.agent "EVS" "unused") "where does water go")
  = "Sorry, I don't have information on this topic in the EVS textbook.".
Proof.
  apply (C8_no_information
           (fixtures.services [fixtures.page "  Chapter 3  "])
           (fixtures.agent "EVS" "unused") "where does water go").
  - left. reflexivity.
  - right. repeat constructor.
Defined.


Lemma any_in_head w ws s :
  contains w s = true -> any_in (w :: ws) s = true.
Proof. intros H. unfold any_in. simpl. now rewrite H. Qed.

Lemma any_in_tail w ws s :
  any_in ws s = true -> any_in (w :: ws) s = true.
Proof. intros H. unfold any_in in *. simpl. rewrite H. apply orb_true_r. Qed.

Lemma any_in_false_In ws s w :
  any_in ws s = false -> In w ws -> contains w s = false.
Proof.
  unfold any_in. intros H Hin.
  destruct (contains w s) eqn:E; [|reflexivity].
  assert (existsb (fun w => contains w s) ws = true)
    by (apply List.existsb_exists; eauto).
  congruence.
Qed.

Lemma math_gate_open subject q :
  opens_math_gate q -> math_gate subject q = None.
Proof.
  intros H. unfold math_gate.
  destruct (String.eqb (lower subject) "math"); [|reflexivity].
  destruct H as [H | [H | [H | H]]].
  - unfold math_keywords. now rewrite (any_in_head _ _ _ H).
  - unfold math_keywords.
    now rewrite (any_in_tail _ _ _ (any_in_head _ _ _ H)).
  - unfold math_keywords.
    now rewrite (any_in_tail _ _ _ (any_in_tail _ _ _ (any_in_head _ _ _ H))).
  - rewrite H. now rewrite andb_false_r.
Qed.



(** ** The grounding check *)

Lemma mem_In w l : mem w l = true <-> In w l.
Proof.
  unfold mem. rewrite List.existsb_exists. split.
  - intros (x & Hx & E). apply String.eqb_eq in E. now subst.
  - intros H. exists w. split; [exact H | apply String.eqb_refl].
Qed.

Lemma long_words_In w text :
  In w (long_words text) <->
  In w (split (lower text)) /\ (3 < String.length w)%nat.
Proof.
  unfold long_words, to_set. rewrite List.nodup_In, List.filter_In.
  now rewrite Nat.ltb_lt.
Qed.

(** Against words longer than 3 characters, the whole word set of the
    context and its long words count the same. *)
Lemma inter_size_long_words r C :
  inter_size (long_words r) (to_set (split (lower C)))
  = inter_size (long_words r) (long_words C).
Proof.
  unfold inter_size. f_equal. apply List.filter_ext_in. intros w Hw.
  apply long_words_In in Hw as [_ Hlen].
  destruct (mem w (long_words C)) eqn:E.
  - apply mem_In, long_words_In in E as [E _].
    apply mem_In. unfold to_set. now apply List.nodup_In.
  - destruct (mem w (to_set (split (lower C)))) eqn:E'; [|reflexivity].
    apply mem_In in E'. unfold to_set in E'. apply List.nodup_In in E'.
    assert (In w (long_words C)) as H%mem_In by now apply long_words_In.
    congruence.
Qed.

Lemma prefix_lower w s :
  String.prefix w s = true -> String.prefix (lower w) (lower s) = true.
Proof.
  revert s. induction w as [|a w IH]; intros s; [intros _; now destruct s |].
  destruct s as [|b s]; simpl; [discriminate |].
  destruct (ascii_dec a b) as [-> | _]; [|discriminate].
  intros H. destruct (ascii_dec (lower_char b) (lower_char b)); [|congruence].
  now apply IH.
Qed.

Lemma contains_eq needle hay :
  contains needle hay
  = if String.prefix needle hay then true
    else match hay with
         | EmptyString => false
         | String _ hay' => contains needle hay'
         end.
Proof. now destruct hay. Qed.

(** Text found in [s] is found, lowered, in the lowered [s]. *)
Lemma contains_lower w s :
  contains w s = true -> contains (lower w) (lower s) = true.
Proof.
  induction s as [|c s IH]; rewrite (contains_eq w), (contains_eq (lower w)).
  - destruct (String.prefix w "") eqn:E; [|discriminate].
    intros _. now rewrite (prefix_lower w "" E).
  - destruct (String.prefix w (String c s)) eqn:E.
    + intros _. now rewrite (prefix_lower _ _ E).
    + intros H. cbn [lower]. rewrite (IH H).
      now destruct (String.prefix (lower w) (String (lower_char c) (lower s))).
Qed.

Lemma grounded_rewrites subject context response :
  (400 < String.length response)%nat ->
  contains "cannot find" (lower response) = false ->
  long_words context <> [] ->
  (10 * inter_size (long_words response) (long_words context)
   < List.length (long_words response))%nat ->
  grounded subject context response = cannot_find subject.
Proof.
  intros Hlen Hcf Hc Hlt. unfold grounded.
  apply Nat.ltb_lt in Hlen. rewrite Hlen, Hcf. cbn [negb andb].
  destruct (long_words response) as [|w ws] eqn:Er; [simpl in Hlt; lia |].
  destruct (long_words context) as [|v vs] eqn:Ec; [congruence |].
  apply Nat.ltb_lt in Hlt. now rewrite Hlt.
Qed.

Lemma grounded_keeps_disclaimer subject context response :
  contains "cannot find" (lower response) = true ->
  grounded subject context response = response.
Proof.
  intros H. unfold grounded. rewrite H. now rewrite andb_false_r.
Qed.

(** The completion service is called only on the last branch of [query],
    with the prompt of that branch. *)
Lemma completion_called sv self q p :
  In (EvComplete p) (calls (query sv self q)) ->
  p = prompt_of self q (retrieved sv self q)
  /\ reaches_retrieval sv self q
  /\ not_meaningful (retrieved sv self q) = false.
Proof.
  intros Hin.
  destruct (query_cases sv self q)
    as [(r & _ & E) | [(c & s & _ & _ & E) | [[Hr Hd] | [Hr Hd]]]].
  - rewrite E in Hin. destruct Hin.
  - rewrite E in Hin. destruct Hin.
  - rewrite (query_no_information sv self q Hr Hd) in Hin.
    destruct Hin as [H | []]. discriminate H.
  - rewrite (query_completed sv self q Hr Hd) in Hin.
    destruct Hin as [H | [H | []]]; [discriminate H |].
    injection H as <-. auto.
Qed.

(** C4, as the code has it: for every completion response R in ASCII,
    trimmed of the blanks around it, and retrieved context C in ASCII
    that holds at least one word longer than 3 characters: if R is longer
    than 400 characters, does not contain "cannot find" in any letter
    case, and fewer than a tenth of its distinct words longer than 3
    characters occur in C's word set, [query] returns "I cannot find this
    information in the {subject} textbook." instead of R; and an R that
    contains "cannot find" is returned unrewritten, whatever its length
    and overlap. *)
Theorem C4_grounding (sv : Services) (self : BaseAgent) (q p raw : string) :
  In (EvComplete p) (calls (query sv self q)) ->
  llm self p = Reply raw ->
  isascii raw = true ->
  isascii (context_of (retrieved sv self q)) = true ->
  let R := strip raw in
  let C := context_of (retrieved sv self q) in
  ((400 < String.length R)%nat ->
   contains "cannot find" (lower R) = false ->
   long_words C <> [] ->
   spec.overlap_below_tenth R C ->
   answer (query sv self q)
   = "I cannot find this information in the " +:+ subject self
     +:+ " textbook.")
  /\ (contains "cannot find" (lower R) = true -> answer (query sv self q) = R)
  /\ (contains "cannot find" R = true -> answer (query sv self q) = R).
Proof.
  intros Hin Hllm _ _ R C.
  apply completion_called in Hin as (-> & Hr & Hd).
  rewrite (query_completed sv self q Hr Hd), Hllm. simpl. fold R C.
  split; [|split].
  - intros Hlen Hcf Hc Hov. apply grounded_rewrites; try assumption.
    unfold spec.overlap_below_tenth in Hov.
    now rewrite inter_size_long_words in Hov.
  - apply grounded_keeps_disclaimer.
  - intros H. apply grounded_keeps_disclaimer.
    now apply contains_lower in H.
Qed.

(** A long answer about zebras against a page about plants. *)
Lemma C4_grounding_witness :
  answer (query (fixtures.services
                   [fixtures.page "Plants need water and sunlight to grow."])
                (fixtures.agent "EVS" fixtures.zebras) "where does water go")
  = "I cannot find this information in the EVS textbook.".
Proof.
  refine (proj1 (C4_grounding
           (fixtures.services
              [fixtures.page "Plants need water and sunlight to grow."])
           (fixtures.agent "EVS" fixtures.zebras) "where does water go"
           (prompt_of (fixtures.agent "EVS" fixtures.zebras)
                      "where does water go"
                      [fixtures.page "Plants need water and sunlight to grow."])
           fixtures.zebras _ eq_refl _ _) _ _ _ _).
  - right. left. reflexivity.
  - vm_compute. reflexivity.
  - vm_compute. reflexivity.
  - apply Nat.ltb_lt. vm_compute. reflexivity.
  - vm_compute. reflexivity.
  - vm_compute. discriminate.
  - apply Nat.ltb_lt. vm_compute. reflexivity.
Defined.

(** The claim as the specification has it fails when the context holds no
    word longer than 3 characters: the answer is long, does not disclaim,
    shares no word with the context, and is returned as it is. *)
Lemma C4_counterexample :
  let sv := fixtures.services [fixtures.page fixtures.short_words] in
  let self := fixtures.agent "EVS" fixtures.zebras in
  let q := "where does water go" in
  let R := fixtures.zebras in
  let C := context_of (retrieved sv self q) in
  llm self (prompt_of self q (retrieved sv self q)) = Reply R
  /\ calls (query sv self q)
     = [EvRetrieve q; EvComplete (prompt_of self q (retrieved sv self q))]
  /\ (400 < String.length R)%nat
  /\ contains "cannot find" R = false
  /\ contains "cannot find" (lower R) = false
  /\ spec.overlap_below_tenth R C
  /\ answer (query sv self q) = R
  /\ answer (query sv self q)
     <> "I cannot find this information in the EVS textbook.".
Proof.
  cbv zeta. repeat split; try (vm_compute; reflexivity).
  - apply Nat.ltb_lt. vm_compute. reflexivity.
  - vm_compute. discriminate.
Qed.

(** ** The equation shortcut *)







Lemma solve_x_eq_x sv : _solve_equation sv "Math" "x = x" = None.
Proof. reflexivity. Qed.

Lemma solve_other_subject sv S q :
  lower S <> "math" -> _solve_equation sv S q = None.
Proof.
  intros H. unfold _solve_equation.
  now destruct (String.eqb_spec (lower S) "math").
Qed.




(** C3: with subject Math, "2x = 10" gives exactly "Solution: x = [5]",
    the bare coefficient form "2x" being evaluated as "2*x"; "hello
    world", which holds no equation pattern, gives absent; and for every
    subject other than Math every input gives absent.  [_solve_equation]
    is a total function: no input makes it raise. *)
Theorem C3_solve_equation (sv : Services) :
  _solve_equation sv "Math" "2x = 10" = Some "Solution: x = [5]"
  /\ (search_equation "2x = 10" = Some ("2x ", " 10")
      /\ replace "x" "*x" "2x " = "2*x "
      /\ py_eval "2*x " = Ok [0%Z; 2%Z])
  /\ _solve_equation sv "Math" "hello world" = None
  /\ search_equation "hello world" = None
  /\ (forall S q, lower S <> "math" -> _solve_equation sv S q = None).
Proof.
  repeat split; try reflexivity.
  intros S q H. now apply solve_other_subject.
Qed.

(** The English agent never solves, even a plain equation. *)
Lemma C3_solve_equation_witness :
  _solve_equation (fixtures.services []) "English" "2x = 10" = None.
Proof.
  apply (C3_solve_equation (fixtures.services [])). discriminate.
Defined.

(** ** Classification *)

Lemma np_dot_same_length u v :
  List.length u = List.length v -> np_dot u v = Some (dot u v).
Proof. intros E. unfold np_dot. rewrite E. now rewrite Nat.eqb_refl. Qed.

Lemma similarities_fixed_length q_vec vectors :
  Forall (fun sv => List.length (snd sv) = List.length q_vec) vectors ->
  exists sims,
    similarities q_vec vectors = Some sims
    /\ List.length sims = List.length vectors.
Proof.
  induction 1 as [|[subj vec] rest Hv _ (sims & E & L)].
  - now exists [].
  - simpl in *. unfold cosine. rewrite np_dot_same_length by easy.
    rewrite E. eexists. split; [reflexivity |]. simpl. now rewrite L.
Qed.

Lemma subject_vectors_fixed_length sv registered n :
  (forall s, List.length (embed_query sv s) = n) ->
  forall q,
    Forall (fun v => List.length (snd v) = List.length (embed_query sv q))
           (subject_vectors (meta_agent.__init__ sv registered)).
Proof.
  intros H q. unfold meta_agent.__init__, subject_texts. simpl.
  repeat constructor; simpl; now rewrite !H.
Qed.

Lemma find_subject_math sv self q :
  Forall (fun v => List.length (snd v) = List.length (embed_query sv q))
         (subject_vectors self) ->
  subject_vectors self <> [] ->
  says_math q ->
  _find_subject sv self q = Some ("Math", 1%R).
Proof.
  intros Hlen Hne Hq. unfold _find_subject.
  destruct (similarities_fixed_length _ _ Hlen) as (sims & -> & L).
  destruct sims as [|first rest].
  { destruct (subject_vectors self); [now elim Hne | discriminate L]. }
  cbn [max_by_score].
  destruct Hq as [H | [H | [H | H]]]; rewrite H;
    now rewrite ?orb_true_r.
Qed.

(** C6: a sub-question whose lowercase text contains "solve" (likewise
    "math", "equation" or "calculate") is classified as Math with
    confidence exactly 1.0, whatever the embedding service returns: two
    routers built on two different embedding services, each giving
    vectors of one fixed length, classify it alike. *)
Theorem C6_keyword_override (sv1 sv2 : Services)
  (registered1 registered2 : gmap string BaseAgent) (n1 n2 : nat)
  (q : string) :
  (forall s, List.length (embed_query sv1 s) = n1) ->
  (forall s, List.length (embed_query sv2 s) = n2) ->
  contains "solve" (lower q) = true \/ contains "math" (lower q) = true
  \/ contains "equation" (lower q) = true
  \/ contains "calculate" (lower q) = true ->
  _find_subject sv1 (meta_agent.__init__ sv1 registered1) q
  = Some ("Math", 1%R)
  /\ _find_subject sv2 (meta_agent.__init__ sv2 registered2) q
     = _find_subject sv1 (meta_agent.__init__ sv1 registered1) q.
Proof.
  intros H1 H2 Hq.
  assert (Hm : says_math q) by (unfold says_math; tauto).
  rewrite !find_subject_math;
    eauto using subject_vectors_fixed_length; discriminate.
Qed.

(** "Solve 2x = 10", set against an embedding with one coordinate and one
    that sets [hello] apart. *)
Lemma C6_keyword_override_witness :
  _find_subject (fixtures.services [])
    (meta_agent.__init__ (fixtures.services []) fixtures.registry)
    "Solve 2x = 10"
  = Some ("Math", 1%R).
Proof.
  apply (C6_keyword_override (fixtures.services []) fixtures.opposed
           fixtures.registry ∅ 1 1 "Solve 2x = 10").
  - reflexivity.
  - intros s. simpl. now destruct (String.eqb s "hello").
  - left. reflexivity.
Defined.

(** ** The confidence of a classification *)


Lemma max_from_In best sims : In (max_from best sims) (best :: sims).
Proof.
  revert best. induction sims as [|[subj s] rest IH]; intros best; simpl.
  - now left.
  - destruct (Rgt_dec s (snd best)).
    + destruct (IH (subj, s)) as [<- | H]; simpl; auto.
    + destruct (IH best) as [<- | H]; simpl; auto.
Qed.


Lemma similarities_sound q_vec vectors sims subj s :
  similarities q_vec vectors = Some sims ->
  In (subj, s) sims ->
  exists vec, In (subj, vec) vectors /\ cosine q_vec vec = Some s.
Proof.
  revert sims. induction vectors as [|[k vec] rest IH]; intros sims; simpl.
  - intros [= <-] [].
  - destruct (cosine q_vec vec) as [c|] eqn:Ec; [|discriminate].
    destruct (similarities q_vec rest) as [sims'|]; [|discriminate].
    intros [= <-] [[= <- <-] | Hin].
    + exists vec. auto.
    + destruct (IH sims' eq_refl Hin) as (v & Hv & Hc). exists v. auto.
Qed.




Lemma norm_unit a : (a * a = 1)%R -> norm [a] = 1%R.
Proof.
  intros H. unfold norm. simpl.
  replace (a * a + 0)%R with 1%R by lra. apply sqrt_1.
Qed.

Lemma cosine_opposed : cosine [(-1)%R] [1%R] = Some (-1)%R.
Proof.
  unfold cosine. simpl. rewrite !norm_unit by lra. f_equal. field.
Qed.

(** Under [fixtures.opposed] the word "hello" lies opposite to the three
    subject vectors: Math, the first key, is kept with similarity -1. *)
Lemma opposed_hello :
  _find_subject fixtures.opposed
    (meta_agent.__init__ fixtures.opposed fixtures.registry) "hello"
  = Some ("Math", (-1)%R).
Proof.
  unfold _find_subject.
  change (embed_query fixtures.opposed "hello") with [(-1)%R].
  change (subject_vectors
            (meta_agent.__init__ fixtures.opposed fixtures.registry))
    with [("Math", [1%R]); ("English", [1%R]); ("EVS", [1%R])].
  cbn [similarities]. rewrite cosine_opposed.
  cbn [max_by_score max_from snd].
  destruct (Rgt_dec (-1) (-1)) as [H | _]; [lra |].
  reflexivity.
Qed.



(** ** Routing rebuilds the index *)


Lemma from_documents_tagged sv subj chunks :
  chunks <> [] ->
  vectorstore.from_documents sv (vectorstore.tag_chunks subj 0 chunks)
  = Returned
      {| vd_docs := vectorstore.tag_chunks subj 0 chunks;
         vd_vectors :=
           map (fun d => embed_query sv (page_content d))
               (vectorstore.tag_chunks subj 0 chunks) |}.
Proof. destruct chunks as [|c cs]; [intros H; now elim H | reflexivity]. Qed.

Lemma from_documents_none sv subj chunks :
  chunks = [] ->
  vectorstore.from_documents sv (vectorstore.tag_chunks subj 0 chunks)
  = Raised "IndexError".
Proof. now intros ->. Qed.









(** ** Splitting a question *)

#[local] Arguments String.append !s1 s2 : simpl nomatch.

Lemma append_assoc (a b c : string) : (a +:+ b) +:+ c = a +:+ b +:+ c.
Proof.
  induction a as [|x a IH]; cbn [append]; [reflexivity | now rewrite IH].
Qed.

Lemma append_nil_r (a : string) : a +:+ "" = a.
Proof.
  induction a as [|x a IH]; cbn [append]; [reflexivity | now rewrite IH].
Qed.

Lemma re_split_go_nonempty skip prev cur s :
  re_split_go skip prev cur s <> [].
Proof.
  revert skip prev cur. induction s as [|c s IH]; intros skip prev cur.
  - discriminate.
  - cbn [re_split_go]. destruct skip as [|k]; [|apply IH].
    destruct (Ascii.eqb c "?"); [discriminate |].
    destruct (and_here prev (String c s)); [discriminate |].
    destruct (Ascii.eqb c (ascii_of_nat 10)); [discriminate | apply IH].
Qed.

(** [and] does not start at a character outside words. *)
Lemma and_here_outside_word prev c s :
  is_word c = false -> and_here prev (String c s) = false.
Proof.
  intros Hc. unfold and_here.
  destruct s as [|c2 [|c3 rest]]; try apply andb_false_r.
  destruct (Ascii.eqb_spec c "a") as [-> | _]; [discriminate Hc |].
  apply andb_false_r.
Qed.

(** Whether [and] stands at the head of [a] does not depend on what
    follows [a], when that starts outside words. *)
Lemma and_here_app prev a c b :
  is_word c = false ->
  and_here prev (a +:+ String c b) = and_here prev a.
Proof.
  intros Hc. unfold and_here. f_equal.
  destruct a as [|c1 [|c2 [|c3 [|c4 rest]]]]; cbn [append].
  - destruct b as [|? [|? ?]]; try reflexivity.
    destruct (Ascii.eqb_spec c "a") as [-> | _]; [discriminate Hc |].
    reflexivity.
  - destruct b as [|? ?]; try reflexivity.
    destruct (Ascii.eqb_spec c "n") as [-> | _]; [discriminate Hc |].
    now rewrite andb_false_r.
  - destruct (Ascii.eqb_spec c "d") as [-> | _]; [discriminate Hc |].
    now rewrite andb_false_r.
  - now rewrite Hc.
  - reflexivity.
Qed.

Lemma and_here_length prev c s :
  and_here prev (String c s) = true -> 2 <= String.length s.
Proof.
  unfold and_here. destruct s as [|c2 [|c3 rest]]; simpl;
    rewrite ?andb_false_r; try discriminate.
  intros _. lia.
Qed.

(** Reading [a] and then something that starts outside words: the pieces
    of [a] but the last, then the rest read with the last piece of [a]
    still open. *)
Lemma re_split_go_app a c b :
  is_word c = false ->
  forall skip prev cur,
    skip <= String.length a ->
    re_split_go skip prev cur (a +:+ String c b)
    = removelast (re_split_go skip prev cur a)
      ++ re_split_go 0 false (List.last (re_split_go skip prev cur a) "")
           (String c b).
Proof.
  intros Hc. induction a as [|x a IH]; intros skip prev cur Hskip.
  - simpl in Hskip. assert (skip = 0) as -> by lia.
    cbn [append re_split_go removelast List.last app].
    now rewrite !and_here_outside_word.
  - cbn [append]. cbn [re_split_go].
    change (String x (a +:+ String c b)) with (String x a +:+ String c b).
    rewrite (and_here_app prev (String x a) c b Hc).
    simpl in Hskip.
    assert (Hcons : forall p l,
               l <> [] ->
               removelast (p :: l) = p :: removelast l
               /\ List.last (p :: l) "" = List.last l "").
    { intros p [|y l] Hl; [now elim Hl | split; reflexivity]. }
    destruct skip as [|k]; [|apply IH; lia].
    destruct (Ascii.eqb x "?").
    { rewrite IH by lia.
      destruct (Hcons cur _ (re_split_go_nonempty 0 false "" a)) as [-> ->].
      reflexivity. }
    destruct (and_here prev (String x a)) eqn:Hand.
    { apply and_here_length in Hand. rewrite IH by exact Hand.
      destruct (Hcons cur _ (re_split_go_nonempty 2 true "" a)) as [-> ->].
      reflexivity. }
    destruct (Ascii.eqb x (ascii_of_nat 10)).
    { rewrite IH by lia.
      destruct (Hcons cur _ (re_split_go_nonempty 0 false "" a)) as [-> ->].
      reflexivity. }
    apply IH. lia.
Qed.

(** The piece being read is only ever extended at its end. *)
Lemma re_split_go_cur s :
  forall skip prev cur,
    re_split_go skip prev cur s
    = match re_split_go skip prev "" s with
      | [] => []
      | h :: t => (cur +:+ h) :: t
      end.
Proof.
  induction s as [|x s IH]; intros skip prev cur.
  - simpl. now rewrite append_nil_r.
  - cbn [re_split_go]. destruct skip as [|k]; [|apply IH].
    destruct (Ascii.eqb x "?"); [now rewrite append_nil_r |].
    destruct (and_here prev (String x s)); [now rewrite append_nil_r |].
    destruct (Ascii.eqb x (ascii_of_nat 10)); [now rewrite append_nil_r |].
    rewrite IH. rewrite (IH 0 (is_word x) ("" +:+ String x "")).
    destruct (re_split_go 0 (is_word x) "" s) as [|h t]; [reflexivity |].
    now rewrite append_assoc.
Qed.

Lemma removelast_last (l : list string) :
  l <> [] -> removelast l ++ [List.last l ""] = l.
Proof. intros H. symmetry. now apply List.app_removelast_last. Qed.

Lemma stripped_parts_app l1 l2 :
  stripped_parts (l1 ++ l2) = stripped_parts l1 ++ stripped_parts l2.
Proof. unfold stripped_parts. now rewrite List.filter_app, List.map_app. Qed.

(** The raw pieces on both sides of a question mark or a line break. *)
Lemma re_split_mark a c b :
  is_mark_or_newline c = true ->
  re_split (a +:+ String c b) = re_split a ++ re_split b.
Proof.
  intros Hc. unfold re_split.
  assert (Hw : is_word c = false).
  { unfold is_mark_or_newline, newline in Hc.
    apply orb_true_iff in Hc as [H | H]; apply Ascii.eqb_eq in H;
      now subst c. }
  rewrite (re_split_go_app a c b Hw) by lia.
  pose proof (re_split_go_nonempty 0 false "" a) as Hne.
  set (L := re_split_go 0 false "" a) in *.
  assert (E : re_split_go 0 false (List.last L "") (String c b)
              = [List.last L ""] ++ re_split_go 0 false "" b).
  { cbn [re_split_go]. rewrite (and_here_outside_word _ _ _ Hw).
    unfold is_mark_or_newline, newline in Hc.
    destruct (Ascii.eqb c "?"); [reflexivity |].
    simpl in Hc. now rewrite Hc. }
  rewrite E, app_assoc. now rewrite (removelast_last L Hne).
Qed.

Lemma re_split_go_prev b p1 p2 cur :
  starts_outside_word b = true ->
  re_split_go 0 p1 cur b = re_split_go 0 p2 cur b.
Proof.
  destruct b as [|c b]; [reflexivity |]. simpl. intros H.
  apply negb_true_iff in H. cbn [re_split_go].
  now rewrite !(and_here_outside_word _ _ _ H), H.
Qed.

(** A standalone [and] at the head closes the piece being read. *)
Lemma re_split_go_and cur b :
  starts_outside_word b = true ->
  re_split_go 0 false cur ("and" +:+ b) = cur :: re_split b.
Proof.
  intros Hb. cbn [append re_split_go].
  assert (Hand : and_here false (String "a" (String "n" (String "d" b)))
                 = true).
  { unfold and_here. destruct b; [reflexivity | exact Hb]. }
  rewrite Hand. cbn. f_equal. now apply re_split_go_prev.
Qed.

Lemma ends_outside_word_inv a :
  ends_outside_word a = true ->
  a = "" \/ exists a0 c, a = a0 +:+ String c "" /\ is_word c = false.
Proof.
  induction a as [|x a IH]; [now left |]. intros H. right.
  destruct a as [|y a].
  - exists "", x. split; [reflexivity |]. now apply negb_true_iff.
  - destruct (IH H) as [E | (a0 & c & E & Hc)]; [discriminate E |].
    exists (String x a0), c. split; [|exact Hc]. simpl. now rewrite <- E.
Qed.

(** The raw pieces on both sides of a standalone [and]. *)
Lemma re_split_and a b :
  ends_outside_word a = true ->
  starts_outside_word b = true ->
  re_split (a +:+ "and" +:+ b) = re_split a ++ re_split b.
Proof.
  intros Ha Hb.
  destruct (ends_outside_word_inv a Ha) as [-> | (a0 & c & -> & Hc)].
  - change ("" +:+ "and" +:+ b) with ("and" +:+ b). unfold re_split at 1.
    now rewrite re_split_go_and.
  - rewrite append_assoc. change (String c "" +:+ "and" +:+ b)
      with (String c ("and" +:+ b)).
    unfold re_split at 1 2.
    rewrite !(re_split_go_app a0 c _ Hc) by lia.
    rewrite <- app_assoc. f_equal.
    set (cur := List.last (re_split_go 0 false "" a0) "").
    cbn [re_split_go]. rewrite !(and_here_outside_word _ _ _ Hc), Hc.
    destruct (Ascii.eqb c "?").
    { now rewrite re_split_go_and. }
    destruct (Ascii.eqb c (ascii_of_nat 10)).
    { now rewrite re_split_go_and. }
    now rewrite re_split_go_and.
Qed.

(** *** What [strip] leaves *)

Lemma rstrip_idempotent s : rstrip (rstrip s) = rstrip s.
Proof.
  induction s as [|c s IH]; [reflexivity |]. cbn [rstrip].
  destruct (is_empty (rstrip s) && isspace c) eqn:E; [reflexivity |].
  cbn [rstrip]. now rewrite IH, E.
Qed.

Lemma lstrip_head s :
  lstrip s = ""
  \/ exists c r, lstrip s = String c r /\ isspace c = false.
Proof.
  induction s as [|c s IH]; [now left |]. cbn [lstrip].
  destruct (isspace c) eqn:E; [exact IH |]. right. now exists c, s.
Qed.

Lemma strip_idempotent s : strip (strip s) = strip s.
Proof.
  unfold strip. destruct (lstrip_head s) as [-> | (c & r & -> & Hc)].
  - reflexivity.
  - cbn [rstrip]. rewrite Hc, andb_false_r. cbn [lstrip]. rewrite Hc.
    cbn [rstrip]. rewrite rstrip_idempotent. now rewrite Hc, andb_false_r.
Qed.

Lemma any_char_lstrip p s :
  any_char p s = false -> any_char p (lstrip s) = false.
Proof.
  induction s as [|c s IH]; [reflexivity |]. cbn [lstrip any_char].
  intros H. apply orb_false_iff in H as [Hc Hs].
  destruct (isspace c); [now apply IH |]. cbn [any_char]. now rewrite Hc, Hs.
Qed.

Lemma any_char_rstrip p s :
  any_char p s = false -> any_char p (rstrip s) = false.
Proof.
  induction s as [|c s IH]; [reflexivity |]. cbn [rstrip any_char].
  intros H. apply orb_false_iff in H as [Hc Hs].
  destruct (is_empty (rstrip s) && isspace c); [reflexivity |].
  cbn [any_char]. now rewrite Hc, IH.
Qed.

Lemma any_char_strip p s :
  any_char p s = false -> any_char p (strip s) = false.
Proof. intros H. now apply any_char_rstrip, any_char_lstrip. Qed.

Lemma any_char_append p a b :
  any_char p (a +:+ b) = any_char p a || any_char p b.
Proof.
  induction a as [|c a IH]; [reflexivity |]. cbn [append any_char].
  now rewrite IH, orb_assoc.
Qed.

(** No raw piece holds a question mark or a line break. *)
Lemma re_split_go_no_mark s :
  forall skip prev cur,
    any_char is_mark_or_newline cur = false ->
    Forall (fun p => any_char is_mark_or_newline p = false)
           (re_split_go skip prev cur s).
Proof.
  induction s as [|x s IH]; intros skip prev cur Hcur.
  - now constructor.
  - cbn [re_split_go]. destruct skip as [|k]; [|now apply IH].
    destruct (Ascii.eqb x "?") eqn:E1.
    { constructor; [exact Hcur | now apply IH]. }
    destruct (and_here prev (String x s)).
    { constructor; [exact Hcur | now apply IH]. }
    destruct (Ascii.eqb x (ascii_of_nat 10)) eqn:E2.
    { constructor; [exact Hcur | now apply IH]. }
    apply IH. rewrite any_char_append, Hcur. cbn [any_char].
    unfold is_mark_or_newline, newline. now rewrite E1, E2.
Qed.

(** The sub-questions are trimmed, not empty, and free of the two
    one-character separators. *)
Lemma split_questions_shape text :
  Forall (fun p => p <> "" /\ strip p = p
                   /\ any_char is_mark_or_newline p = false)
         (_split_questions text).
Proof.
  unfold _split_questions, stripped_parts.
  pose proof (re_split_go_no_mark text 0 false "" eq_refl) as H.
  fold (re_split text) in H.
  induction H as [|p ps Hp _ IH]; [constructor |].
  cbn [List.filter].
  destruct (is_empty (strip p)) eqn:E; cbn [negb]; [exact IH |].
  cbn [map]. constructor; [|exact IH].
  split; [intros E'; now rewrite E' in E |].
  split; [apply strip_idempotent | now apply any_char_strip].
Qed.

(** *** A text without separators *)

Lemma and_here_prefix prev s :
  and_here prev s = true -> String.prefix "and" s = true.
Proof.
  unfold and_here. destruct s as [|c1 [|c2 [|c3 rest]]];
    rewrite ?andb_false_r; try discriminate.
  intros H. apply andb_prop in H as [_ H]. apply andb_prop in H as [H _].
  apply andb_prop in H as [H H3]. apply andb_prop in H as [H1 H2].
  apply Ascii.eqb_eq in H1, H2, H3. subst. now destruct rest.
Qed.

Lemma re_split_go_plain s :
  any_char is_mark_or_newline s = false ->
  contains "and" s = false ->
  forall prev cur, re_split_go 0 prev cur s = [cur +:+ s].
Proof.
  induction s as [|x s IH]; intros Hm Ha prev cur.
  - cbn. now rewrite append_nil_r.
  - cbn [any_char] in Hm. apply orb_false_iff in Hm as [Hx Hm].
    unfold is_mark_or_newline, newline in Hx.
    apply orb_false_iff in Hx as [E1 E2].
    rewrite contains_eq in Ha.
    destruct (String.prefix "and" (String x s)) eqn:Ep; [discriminate |].
    cbn [re_split_go]. rewrite E1, E2.
    destruct (and_here prev (String x s)) eqn:Eh.
    { apply and_here_prefix in Eh. congruence. }
    rewrite (IH Hm Ha). now rewrite append_assoc.
Qed.

(** *** An [and] that touches a word character *)

Lemma and_here_inv prev s :
  and_here prev s = true ->
  prev = false
  /\ exists b, s = "and" +:+ b /\ starts_outside_word b = true.
Proof.
  unfold and_here. destruct prev; [discriminate |]. cbn [negb andb].
  destruct s as [|c1 [|c2 [|c3 rest]]]; try discriminate.
  intros H. apply andb_prop in H as [H Hr].
  apply andb_prop in H as [H H3]. apply andb_prop in H as [H1 H2].
  apply Ascii.eqb_eq in H1, H2, H3. subst.
  split; [reflexivity |]. exists rest. split; [reflexivity |].
  now destruct rest.
Qed.

Lemma ends_outside_word_snoc pre x :
  ends_outside_word (pre +:+ String x "") = negb (is_word x).
Proof.
  induction pre as [|y pre IH]; [reflexivity |].
  destruct pre as [|z pre]; [reflexivity |]. exact IH.
Qed.

(** With no standalone [and], no question mark and no line break, the
    text is read as one piece. *)
Lemma re_split_go_attached s :
  forall pre prev cur,
    any_char is_mark_or_newline s = false ->
    prev = negb (ends_outside_word pre) ->
    (forall a b,
       s = a +:+ "and" +:+ b ->
       ends_outside_word (pre +:+ a) = false
       \/ starts_outside_word b = false) ->
    re_split_go 0 prev cur s = [cur +:+ s].
Proof.
  induction s as [|x s IH]; intros pre prev cur Hm Hprev Hand.
  - cbn. now rewrite append_nil_r.
  - cbn [any_char] in Hm. apply orb_false_iff in Hm as [Hx Hm].
    unfold is_mark_or_newline, newline in Hx.
    apply orb_false_iff in Hx as [E1 E2].
    cbn [re_split_go]. rewrite E1, E2.
    destruct (and_here prev (String x s)) eqn:Eh.
    { apply and_here_inv in Eh as (Ep & b & Eb & Hb).
      destruct (Hand "" b Eb) as [H | H].
      - rewrite append_nil_r in H. rewrite H in Hprev. cbn in Hprev.
        congruence.
      - congruence. }
    rewrite (IH (pre +:+ String x "") (is_word x) (cur +:+ String x "") Hm).
    + now rewrite append_assoc.
    + now rewrite ends_outside_word_snoc, negb_involutive.
    + intros a b E. rewrite append_assoc.
      apply (Hand (String x a) b). cbn [append]. now rewrite E.
Qed.

(** C5: on a text in ASCII, [_split_questions] divides the input at
    every question mark, at every standalone word "and" and at every line
    break, trims each fragment and drops the empty ones: the
    sub-questions of a text cut at one of the three are those of what
    stands before followed by those of what stands after; a text with
    none of the three is its own trimmed fragment, or nothing when it is
    blank; every sub-question is trimmed, not empty and free of question
    marks and line breaks; an "and" that touches a letter, a digit or an
    underscore does not cut.  In particular "What is 2+2 and explain
    photosynthesis" gives exactly "What is 2+2" and "explain
    photosynthesis", in that order. *)
Theorem C5_split_questions :
  _split_questions "What is 2+2 and explain photosynthesis"
  = ["What is 2+2"; "explain photosynthesis"]
  /\ (forall a b,
        isascii a = true -> isascii b = true ->
        _split_questions (a +:+ "?" +:+ b)
        = _split_questions a ++ _split_questions b)
  /\ (forall a b,
        isascii a = true -> isascii b = true ->
        _split_questions (a +:+ String newline b)
        = _split_questions a ++ _split_questions b)
  /\ (forall a b,
        isascii a = true -> isascii b = true ->
        ends_outside_word a = true ->
        starts_outside_word b = true ->
        _split_questions (a +:+ "and" +:+ b)
        = _split_questions a ++ _split_questions b)
  /\ (forall text,
        isascii text = true ->
        any_char is_mark_or_newline text = false ->
        contains "and" text = false ->
        _split_questions text = if blank text then [] else [strip text])
  /\ (forall text,
        isascii text = true ->
        any_char is_mark_or_newline text = false ->
        attached_ands text ->
        _split_questions text = if blank text then [] else [strip text])
  /\ (forall text,
        isascii text = true ->
        Forall (fun p => p <> "" /\ strip p = p
                         /\ any_char is_mark_or_newline p = false)
               (_split_questions text))
  /\ _split_questions "sand and band? android" = ["sand"; "band"; "android"]
  /\ _split_questions "1and2 and_then 3 and4" = ["1and2 and_then 3 and4"].
Proof.
  split; [reflexivity |].
  split.
  { intros a b _ _. unfold _split_questions.
    change ("?" +:+ b) with (String "?" b).
    now rewrite re_split_mark, stripped_parts_app. }
  split.
  { intros a b _ _. unfold _split_questions.
    now rewrite re_split_mark, stripped_parts_app. }
  split.
  { intros a b _ _ Ha Hb. unfold _split_questions.
    now rewrite re_split_and, stripped_parts_app. }
  split.
  { intros text _ Hm Ha. unfold _split_questions, re_split, blank.
    rewrite (re_split_go_plain text Hm Ha). unfold stripped_parts.
    cbn [append List.filter].
    destruct (is_empty (strip text)); reflexivity. }
  split.
  { intros text _ Hm Ha. unfold _split_questions, re_split, blank.
    rewrite (re_split_go_attached text "" false "" Hm eq_refl Ha).
    unfold stripped_parts. cbn [append List.filter].
    destruct (is_empty (strip text)); reflexivity. }
  split; [intros text _; apply split_questions_shape |].
  split; reflexivity.
Qed.

(** The cut at the standalone "and" of the example. *)
Lemma C5_split_questions_witness :
  _split_questions ("What is 2+2 " +:+ "and" +:+ " explain photosynthesis")
  = _split_questions "What is 2+2 "
    ++ _split_questions " explain photosynthesis".
Proof.
  apply (proj1 (proj2 (proj2 (proj2 C5_split_questions)))
           "What is 2+2 " " explain photosynthesis");
    reflexivity.
Defined.

(* ===================================================================== *)
(** * Further properties of the code *)
(* ===================================================================== *)

(** ** [query]: the log and the collaborators *)

(** X1: whatever branch [query] takes, it appends to the log exactly the
    question, as a User message, and then the answer it returns, as an AI
    message; the messages that were there stay in place and the log keeps
    its subject. *)
Theorem X1_query_log (sv : Services) (self : BaseAgent) (q : string) :
  messages (chat_memory (memory_after (query sv self q)))
  = messages (chat_memory (agent_memory self))
    ++ [ {| msg_type := User; content := q |};
         {| msg_type := AI; content := answer (query sv self q) |} ]
  /\ pm_subject (memory_after (query sv self q))
     = pm_subject (agent_memory self).
Proof.
  destruct (query_cases sv self q)
    as [(r & _ & E) | [(c & s & _ & _ & E) | [[Hr Hd] | [Hr Hd]]]].
  - rewrite E. split; [apply respond_log | reflexivity].
  - rewrite E. split; [apply respond_log | reflexivity].
  - rewrite (query_no_information sv self q Hr Hd).
    split; [apply respond_log | reflexivity].
  - rewrite (query_completed sv self q Hr Hd).
    split; [apply respond_log | reflexivity].
Qed.

(** X2: a run of [query] is one of three: no collaborator call at all
    (the question was refused by the subject gate or answered by the
    equation shortcut); one retrieval, answered by the "no information"
    message; one retrieval followed by one completion on the prompt built
    from what was retrieved. *)
Theorem X2_query_protocol (sv : Services) (self : BaseAgent) (q : string) :
  (calls (query sv self q) = []
   /\ (subject_gate (subject self) q = Some (answer (query sv self q))
       \/ _solve_equation sv (subject self) q
          = Some (answer (query sv self q))))
  \/ (calls (query sv self q) = [EvRetrieve q]
      /\ answer (query sv self q) = no_information (subject self))
  \/ calls (query sv self q)
     = [EvRetrieve q; EvComplete (prompt_of self q (retrieved sv self q))].
Proof.
  destruct (query_cases sv self q)
    as [(r & Hg & E) | [(c & s & _ & Hs & E) | [[Hr Hd] | [Hr Hd]]]].
  - left. rewrite E. split; [reflexivity | left; exact Hg].
  - left. rewrite E. split; [reflexivity | right; exact Hs].
  - right. left. rewrite (query_no_information sv self q Hr Hd). now split.
  - right. right. now rewrite (query_completed sv self q Hr Hd).
Qed.

(** X3: when the completion service fails with a message, [query] does
    not fail: it answers "Error from model: " followed by the message,
    and records that answer like any other. *)
Theorem X3_completion_failure (sv : Services) (self : BaseAgent)
  (q p e : string) :
  In (EvComplete p) (calls (query sv self q)) ->
  llm self p = Failure e ->
  answer (query sv self q) = "Error from model: " +:+ e
  /\ messages (chat_memory (memory_after (query sv self q)))
     = spec.logged (agent_memory self) q ("Error from model: " +:+ e).
Proof.
  intros Hin Hllm. apply completion_called in Hin as (-> & Hr & Hd).
  rewrite (query_completed sv self q Hr Hd), Hllm.
  split; [reflexivity | apply respond_log].
Qed.

(** A model that times out on a question about water. *)
Lemma X3_completion_failure_witness :
  answer (query (fixtures.services
                   [fixtures.page "Plants need water and sunlight to grow."])
                (fixtures.failing_agent "EVS" "timed out")
                "where does water go")
  = "Error from model: timed out".
Proof.
  refine (proj1 (X3_completion_failure
           (fixtures.services
              [fixtures.page "Plants need water and sunlight to grow."])
           (fixtures.failing_agent "EVS" "timed out") "where does water go"
           (prompt_of (fixtures.failing_agent "EVS" "timed out")
              "where does water go"
              [fixtures.page "Plants need water and sunlight to grow."])
           "timed out" _ eq_refl)).
  right. left. reflexivity.
Defined.

Lemma grounded_changed subject context response :
  grounded subject context response <> response ->
  grounded subject context response = cannot_find subject
  /\ (400 < String.length response)%nat
  /\ contains "cannot find" (lower response) = false
  /\ long_words response <> []
  /\ long_words context <> []
  /\ (10 * inter_size (long_words response) (long_words context)
      < List.length (long_words response))%nat.
Proof.
  unfold grounded.
  destruct (Nat.ltb_spec 400 (String.length response)) as [Hlen | _];
    [|intros H; now elim H].
  destruct (contains "cannot find" (lower response));
    [intros H; now elim H |].
  cbn [negb andb].
  destruct (long_words response) as [|w ws]; [intros H; now elim H |].
  destruct (long_words context) as [|v vs]; [intros H; now elim H |].
  destruct (Nat.ltb_spec (10 * inter_size (w :: ws) (v :: vs))
                         (List.length (w :: ws))) as [Hlt | _];
    [|intros H; now elim H].
  intros _. repeat split; try assumption; discriminate.
Qed.

(** X4: for a reply and a context in ASCII, the reply of the completion
    service, trimmed, is the answer unless every condition of the
    grounding check holds: the only other answer is the "cannot find"
    message, and it is given only for a reply longer than 400 characters,
    without "cannot find" in any letter case, with at least one long word
    on each side and fewer than a tenth of its long words found in the
    context.  Replies of at most 400 characters are never rewritten. *)
Theorem X4_grounding_only_if (sv : Services) (self : BaseAgent)
  (q p raw : string) :
  In (EvComplete p) (calls (query sv self q)) ->
  llm self p = Reply raw ->
  isascii raw = true ->
  isascii (context_of (retrieved sv self q)) = true ->
  let R := strip raw in
  let C := context_of (retrieved sv self q) in
  (answer (query sv self q) <> R ->
   answer (query sv self q) = cannot_find (subject self)
   /\ (400 < String.length R)%nat
   /\ contains "cannot find" (lower R) = false
   /\ long_words R <> [] /\ long_words C <> []
   /\ (10 * inter_size (long_words R) (long_words C)
       < List.length (long_words R))%nat)
  /\ ((String.length R <= 400)%nat -> answer (query sv self q) = R).
Proof.
  intros Hin Hllm _ _ R C.
  apply completion_called in Hin as (-> & Hr & Hd).
  rewrite (query_completed sv self q Hr Hd), Hllm. cbn [answer respond].
  fold R C. split; [apply grounded_changed |].
  intros Hlen.
  destruct (string_dec (grounded (subject self) C R) R) as [E | N];
    [exact E |].
  apply grounded_changed in N as (_ & Hgt & _). lia.
Qed.

(** A one-word reply is given back as it is, trimmed. *)
Lemma X4_grounding_only_if_witness :
  answer (query (fixtures.services
                   [fixtures.page "Plants need water and sunlight to grow."])
                (fixtures.agent "EVS" "  Into the soil.  ")
                "where does water go")
  = "Into the soil.".
Proof.
  refine (proj2 (X4_grounding_only_if
           (fixtures.services
              [fixtures.page "Plants need water and sunlight to grow."])
           (fixtures.agent "EVS" "  Into the soil.  ") "where does water go"
           (prompt_of (fixtures.agent "EVS" "  Into the soil.  ")
              "where does water go"
              [fixtures.page "Plants need water and sunlight to grow."])
           "  Into the soil.  " _ eq_refl eq_refl eq_refl) _).
  - right. left. reflexivity.
  - vm_compute. lia.
Defined.

(** ** The equation pattern *)

Lemma all_char_cons p c s : all_char p (String c s) = p c && all_char p s.
Proof.
  unfold all_char. cbn [any_char]. rewrite negb_orb. now rewrite negb_involutive.
Qed.

Lemma span_spec p s :
  s = fst (span p s) +:+ snd (span p s)
  /\ all_char p (fst (span p s)) = true
  /\ stops_at p (snd (span p s)) = true.
Proof.
  induction s as [|c s (E & Ha & Hs)]; [now repeat split |].
  cbn [span]. destruct (p c) eqn:Hc.
  - destruct (span p s) as [a b]. cbn [fst snd] in *. repeat split.
    + now rewrite E at 1.
    + now rewrite all_char_cons, Hc, Ha.
    + exact Hs.
  - repeat split. cbn [snd stops_at]. now rewrite Hc.
Qed.

Lemma match_equation_here_sound s l r :
  match_equation_here s = Some (l, r) ->
  l <> "" /\ r <> ""
  /\ all_char lhs_class l = true /\ all_char rhs_class r = true
  /\ exists post, s = l +:+ "=" +:+ r +:+ post
                  /\ stops_at rhs_class post = true.
Proof.
  unfold match_equation_here.
  destruct (span_spec lhs_class s) as (E1 & A1 & _).
  destruct (span lhs_class s) as [g1 rest]. cbn [fst snd] in *.
  destruct g1 as [|c g1]; [discriminate |]. cbn [is_empty].
  destruct rest as [|e rest']; [discriminate |].
  destruct (Ascii.eqb_spec e "=") as [-> | Hne].
  2:{ destruct e as [[] [] [] [] [] [] [] []]; try discriminate.
      now elim Hne. }
  destruct (span_spec rhs_class rest') as (E2 & A2 & S2).
  destruct (span rhs_class rest') as [g2 post]. cbn [fst snd] in *.
  destruct g2 as [|d g2]; [discriminate |]. cbn [is_empty].
  intros [= <- <-]. repeat split; try discriminate; try assumption.
  exists post. split; [|exact S2].
  rewrite E1 at 1. rewrite E2 at 1. reflexivity.
Qed.

Lemma match_equation_here_cons x s l r :
  lhs_class x = true ->
  match_equation_here s = Some (l, r) ->
  match_equation_here (String x s) = Some (String x l, r).
Proof.
  intros Hx. unfold match_equation_here. cbn [span]. rewrite Hx.
  destruct (span lhs_class s) as [g1 rest].
  destruct g1 as [|c g1]; [discriminate |]. cbn [is_empty].
  destruct rest as [|e rest']; [discriminate |].
  destruct e as [[] [] [] [] [] [] [] []]; try discriminate.
  destruct (span rhs_class rest') as [g2 post].
  destruct g2 as [|d g2]; [discriminate |]. cbn [is_empty].
  now intros [= <- <-].
Qed.

Lemma search_equation_sound q l r :
  search_equation q = Some (l, r) ->
  exists pre post,
    q = pre +:+ l +:+ "=" +:+ r +:+ post
    /\ ends_before lhs_class pre = true
    /\ stops_at rhs_class post = true
    /\ match_equation_here (l +:+ "=" +:+ r +:+ post) = Some (l, r).
Proof.
  induction q as [|x q IH].
  - cbn [search_equation]. destruct (match_equation_here "") eqn:E;
      [|discriminate]. discriminate E.
  - cbn [search_equation].
    destruct (match_equation_here (String x q)) as [m|] eqn:E.
    + intros [= ->].
      destruct (match_equation_here_sound _ _ _ E)
        as (_ & _ & _ & _ & post & Eq & Hs).
      exists "", post. rewrite <- Eq. now repeat split.
    + intros H. destruct (IH H) as (pre & post & Eq & Hp & Hs & Hm).
      exists (String x pre), post.
      split; [change (String x pre +:+ l +:+ "=" +:+ r +:+ post)
                with (String x (pre +:+ l +:+ "=" +:+ r +:+ post));
              now rewrite Eq |].
      split; [|now split].
      destruct pre as [|y pre]; [|exact Hp].
      cbn [ends_before]. destruct (lhs_class x) eqn:Hx; [|reflexivity].
      change ("" +:+ l +:+ "=" +:+ r +:+ post)
        with (l +:+ "=" +:+ r +:+ post) in Eq.
      rewrite <- Eq in Hm.
      rewrite (match_equation_here_cons x q l r Hx Hm) in E. discriminate E.
Qed.

Lemma any_char_true_append_r p a b :
  any_char p b = true -> any_char p (a +:+ b) = true.
Proof. intros H. rewrite any_char_append, H. apply orb_true_r. Qed.

(** X5: a question without the character [=] is never taken for an
    equation: whatever the subject, [_solve_equation] gives nothing and
    leaves the question to retrieval. *)
Theorem X5_no_equals_sign (sv : Services) (subject q : string) :
  any_char (Ascii.eqb "=") q = false ->
  _solve_equation sv subject q = None.
Proof.
  intros Hq. unfold _solve_equation.
  destruct (negb (String.eqb (lower subject) "math")); [reflexivity |].
  destruct (search_equation q) as [[l r]|] eqn:E; [|reflexivity].
  apply search_equation_sound in E as (pre & post & Eq & _).
  rewrite Eq in Hq.
  rewrite any_char_true_append_r in Hq; [discriminate |].
  apply any_char_true_append_r. reflexivity.
Qed.

(** A word problem without an equation. *)
Lemma X5_no_equals_sign_witness :
  _solve_equation (fixtures.services []) "Math" "how many apples are 3 plus 4"
  = None.
Proof.
  apply (X5_no_equals_sign (fixtures.services []) "Math"
           "how many apples are 3 plus 4").
  reflexivity.
Defined.

(** X6: what the pattern of [_solve_equation] finds in a question in
    ASCII: the question reads [pre], [left], the character [=], [right],
    [post]; both sides are not empty; the left side is made of digits,
    [x], [X], the four operators and blanks, the right side of the same
    without [x] and [X]; both are as long as they can be (the character
    before the left side and the one after the right side do not belong
    to them). *)
Theorem X6_equation_match (q left right : string) :
  isascii q = true ->
  search_equation q = Some (left, right) ->
  left <> "" /\ right <> ""
  /\ all_char lhs_class left = true
  /\ all_char rhs_class right = true
  /\ any_char (fun c => Ascii.eqb c "x" || Ascii.eqb c "X") right = false
  /\ exists pre post,
       q = pre +:+ left +:+ "=" +:+ right +:+ post
       /\ ends_before lhs_class pre = true
       /\ stops_at rhs_class post = true.
Proof.
  intros _ H.
  apply search_equation_sound in H as (pre & post & Eq & Hp & Hs & Hm).
  destruct (match_equation_here_sound _ _ _ Hm) as (Hl & Hr & Al & Ar & _).
  repeat split; try assumption.
  - clear - Ar. induction right as [|c r IH]; [reflexivity |].
    rewrite all_char_cons in Ar. apply andb_prop in Ar as [Hc Ar].
    cbn [any_char]. rewrite (IH Ar), orb_false_r.
    destruct (Ascii.eqb_spec c "x") as [-> | _]; [discriminate Hc |].
    destruct (Ascii.eqb_spec c "X") as [-> | _]; [discriminate Hc |].
    reflexivity.
  - now exists pre, post.
Qed.

(** The equation inside "solve 3x + 4 = 10 please". *)
Lemma X6_equation_match_witness :
  exists pre post,
    "solve 3x + 4 = 10 please" = pre +:+ " 3x + 4 " +:+ "=" +:+ " 10 " +:+ post
    /\ ends_before lhs_class pre = true
    /\ stops_at rhs_class post = true.
Proof.
  apply (X6_equation_match "solve 3x + 4 = 10 please" " 3x + 4 " " 10 ");
    reflexivity.
Defined.

(** ** An equation that is solved is not refused *)












(** ** The chunks of an index *)

Lemma setdefault_lookup k v (m : gmap string MetaValue) k' :
  vectorstore.setdefault k v m !! k'
  = if decide (k = k') then Some (default v (m !! k)) else m !! k'.
Proof.
  unfold vectorstore.setdefault.
  destruct (m !! k) as [old|] eqn:E.
  - destruct (decide (k = k')) as [<- | _]; [now rewrite E | reflexivity].
  - rewrite lookup_insert. cbn. reflexivity.
Qed.

Lemma tag_chunks_lookup subject chunks :
  forall j i c,
    chunks !! i = Some c ->
    exists c',
      vectorstore.tag_chunks subject j chunks !! i = Some c'
      /\ page_content c' = page_content c
      /\ metadata c'
         = vectorstore.setdefault "chunk_id" (MInt (Z.of_nat (j + i)))
             (vectorstore.setdefault "subject" (MStr subject) (metadata c)).
Proof.
  induction chunks as [|d ds IH]; intros j i c; [discriminate |].
  destruct i as [|i].
  - intros [= ->]. eexists. cbn. rewrite Nat.add_0_r. repeat split.
  - intros H. cbn [vectorstore.tag_chunks]. cbn [lookup list_lookup] in H |- *.
    destruct (IH (S j) i c H) as (c' & E & Hp & Hm).
    exists c'. split; [exact E |]. split; [exact Hp |].
    rewrite Hm. now replace (S j + i) with (j + S i) by lia.
Qed.

Lemma tag_chunks_contents subject chunks :
  forall j,
    map page_content (vectorstore.tag_chunks subject j chunks)
    = map page_content chunks.
Proof.
  induction chunks as [|d ds IH]; intros j; [reflexivity |].
  cbn. now rewrite IH.
Qed.

(** X11: when the splitter gives no chunk, [build_vector_store] raises
    the [IndexError] of FAISS.  Otherwise it returns an index that holds
    the chunks of the splitter in their order, with their text unchanged
    and one stored vector per chunk, the embedding of its text; chunk
    number [i] carries a subject and a chunk number in its metadata: the
    ones it came with if it had any, otherwise the subject of the index
    and [i]; its other metadata is untouched. *)
Theorem X11_chunk_metadata (sv : Services) (subject root : string)
  (docs : list Document) (w : World) :
  let built := fst (vectorstore.build_vector_store sv subject docs root w) in
  let chunks := chunks_of sv subject docs in
  (chunks = [] -> built = Raised "IndexError")
  /\ (chunks <> [] ->
      exists db,
        built = Returned db
        /\ map page_content (vd_docs db) = map page_content chunks
        /\ vd_vectors db = map (embed_query sv) (map page_content chunks)
        /\ forall (i : nat) (c : Document),
             chunks !! i = Some c ->
             exists c',
               vd_docs db !! i = Some c'
               /\ page_content c' = page_content c
               /\ metadata c' !! "subject"
                  = Some (default (MStr subject) (metadata c !! "subject"))
               /\ metadata c' !! "chunk_id"
                  = Some (default (MInt (Z.of_nat i))
                                  (metadata c !! "chunk_id"))
               /\ forall k, k <> "subject" -> k <> "chunk_id" ->
                            metadata c' !! k = metadata c !! k).
Proof.
  cbn zeta. unfold vectorstore.build_vector_store.
  fold (chunks_of sv subject docs). split.
  { intros E. now rewrite (from_documents_none sv subject _ E). }
  intros Hne. rewrite (from_documents_tagged sv subject _ Hne). cbn [fst].
  eexists. split; [reflexivity |]. cbn [vd_docs vd_vectors].
  split; [apply tag_chunks_contents |].
  split.
  { rewrite <- (tag_chunks_contents subject (chunks_of sv subject docs) 0).
    now rewrite List.map_map. }
  intros i c Hc.
  destruct (tag_chunks_lookup subject _ 0 i c Hc) as (c' & E & Hp & Hm).
  exists c'. split; [exact E |]. split; [exact Hp |].
  rewrite Hm. cbn [Nat.add].
  split; [|split].
  - rewrite !setdefault_lookup. repeat case_decide; congruence.
  - rewrite !setdefault_lookup. repeat case_decide; congruence.
  - intros k H1 H2. rewrite !setdefault_lookup.
    repeat case_decide; congruence.
Qed.

(** A page that already names its subject keeps it. *)
Lemma X11_chunk_metadata_witness :
  exists db c',
    fst (vectorstore.build_vector_store (fixtures.services []) "Math"
           [fixtures.tagged_page] "./db" fixtures.new_world)
    = Returned db
    /\ vd_docs db !! 0 = Some c'
    /\ page_content c' = "Fractions."
    /\ metadata c' !! "subject" = Some (MStr "Arithmetic")
    /\ metadata c' !! "chunk_id" = Some (MInt 0).
Proof.
  destruct (proj2 (X11_chunk_metadata (fixtures.services []) "Math" "./db"
                     [fixtures.tagged_page] fixtures.new_world))
    as (db & E & _ & _ & H); [discriminate |].
  destruct (H 0 fixtures.tagged_page eq_refl) as (c' & E' & Hp & Hs & Hc & _).
  exists db, c'. repeat split; assumption.
Defined.

(** ** Classification: overrides, names and failures *)

Lemma similarities_none q_vec vectors :
  similarities q_vec vectors = None <->
  Exists (fun v => List.length (snd v) <> List.length q_vec) vectors.
Proof.
  induction vectors as [|[subj vec] rest IH].
  - split; [discriminate | intros H; inversion H].
  - cbn [similarities]. unfold cosine, np_dot.
    destruct (Nat.eqb_spec (List.length q_vec) (List.length vec)) as [E | N].
    + destruct (similarities q_vec rest) as [sims|].
      * split; [discriminate |]. intros H. inversion H as [? ? H1 | ? ? H1]; subst.
        -- cbn in H1. congruence.
        -- apply IH in H1. discriminate H1.
      * split; [|reflexivity]. intros _. right. now apply IH.
    + split; [|reflexivity]. intros _. left. cbn. congruence.
Qed.

Lemma similarities_length q_vec vectors sims :
  similarities q_vec vectors = Some sims ->
  List.length sims = List.length vectors.
Proof.
  revert sims. induction vectors as [|[subj vec] rest IH]; intros sims.
  - now intros [= <-].
  - cbn [similarities]. destruct (cosine q_vec vec); [|discriminate].
    destruct (similarities q_vec rest) as [sims'|]; [|discriminate].
    intros [= <-]. cbn. f_equal. now apply IH.
Qed.

(** X12: classification raises exactly when the router has no subject
    vector or when the embedding of the sub-question differs in length
    from one of them.  The override terms are looked at only afterwards:
    a sub-question that says "solve" is not classified either when the
    lengths differ. *)
Theorem X12_classification_fails (sv : Services) (self : MetaAgent)
  (q : string) :
  _find_subject sv self q = None <->
  subject_vectors self = []
  \/ Exists (fun v => ~ same_length sv q v) (subject_vectors self).
Proof.
  unfold _find_subject, same_length.
  destruct (similarities (embed_query sv q) (subject_vectors self))
    as [sims|] eqn:Es.
  - pose proof (similarities_length _ _ _ Es) as L.
    destruct sims as [|first rest].
    + split; [|reflexivity]. intros _. left.
      destruct (subject_vectors self); [reflexivity | discriminate L].
    + cbn [max_by_score]. split.
      * repeat match goal with
               | |- context [if ?b then _ else _] => destruct b
               end; discriminate.
      * intros [E | Hex].
        -- rewrite E in L. discriminate L.
        -- apply similarities_none in Hex. congruence.
  - split; [|reflexivity]. intros _. right. now apply similarities_none.
Qed.

(** "solve x" gets two coordinates, the subjects one: no classification,
    override term or not. *)
Lemma X12_classification_fails_witness :
  _find_subject fixtures.ragged
    (meta_agent.__init__ fixtures.ragged fixtures.registry) "solve x"
  = None.
Proof.
  apply (proj2 (X12_classification_fails fixtures.ragged
                  (meta_agent.__init__ fixtures.ragged fixtures.registry)
                  "solve x")).
  right. left. unfold same_length. cbn. lia.
Defined.




(** X14: a router made by [MetaAgent.__init__] classifies into Math,
    English or EVS and nothing else, whatever agents are registered and
    whatever the embedding service returns: an agent registered under any
    other name is never chosen by [route]. *)
Theorem X14_three_subjects (sv : Services)
  (registered : gmap string BaseAgent) (q subject : string) (c : R) :
  _find_subject sv (meta_agent.__init__ sv registered) q = Some (subject, c) ->
  subject = "Math" \/ subject = "English" \/ subject = "EVS".
Proof.
  unfold _find_subject.
  destruct (similarities (embed_query sv q)
              (subject_vectors (meta_agent.__init__ sv registered)))
    as [sims|] eqn:Es; [|discriminate].
  destruct sims as [|first rest]; [discriminate |]. cbn [max_by_score].
  repeat match goal with
         | |- context [if ?b then _ else _] =>
             destruct b; [intros [= <- <-]; auto |]
         end.
  intros H.
  pose proof (max_from_In first rest) as Hin.
  destruct (max_from first rest) as [s0 c0]. cbn in H.
  injection H as <- <-.
  destruct (similarities_sound _ _ _ _ _ Es Hin) as (vec & Hv & _).
  cbn in Hv. destruct Hv as [[= <- _] | [[= <- _] | [[= <- _] | []]]]; auto.
Qed.

(** The word "hello" under [fixtures.opposed] is Math, the first key. *)
Lemma X14_three_subjects_witness :
  "Math" = "Math" \/ "Math" = "English" \/ "Math" = "EVS".
Proof.
  exact (X14_three_subjects fixtures.opposed fixtures.registry "hello" "Math"
           (-1)%R opposed_hello).
Defined.

(** ** [route]: the combined answer *)





(** ** [route]: nothing to answer, nobody to answer, nothing to read *)

Lemma all_char_append p a b :
  all_char p (a +:+ b) = all_char p a && all_char p b.
Proof.
  unfold all_char. rewrite any_char_append. apply negb_orb.
Qed.

Lemma lstrip_blank s : all_char isspace s = true -> lstrip s = "".
Proof.
  induction s as [|c s IH]; [reflexivity |].
  rewrite all_char_cons. intros H. apply andb_prop in H as [Hc Hs].
  cbn [lstrip]. rewrite Hc. now apply IH.
Qed.

Lemma strip_blank s : all_char isspace s = true -> strip s = "".
Proof. intros H. unfold strip. now rewrite lstrip_blank. Qed.

(** Pieces cut out of blanks and question marks are blank. *)
Lemma re_split_go_blank s :
  forall skip prev cur,
    all_char blank_or_mark s = true ->
    all_char isspace cur = true ->
    Forall (fun p => all_char isspace p = true)
           (re_split_go skip prev cur s).
Proof.
  induction s as [|x s IH]; intros skip prev cur Hs Hcur.
  - now constructor.
  - rewrite all_char_cons in Hs. apply andb_prop in Hs as [Hx Hs].
    cbn [re_split_go]. destruct skip as [|k]; [|now apply IH].
    destruct (Ascii.eqb x "?") eqn:E1; [constructor; [exact Hcur | now apply IH] |].
    destruct (and_here prev (String x s));
      [constructor; [exact Hcur | now apply IH] |].
    destruct (Ascii.eqb x (ascii_of_nat 10));
      [constructor; [exact Hcur | now apply IH] |].
    apply IH; [exact Hs |].
    rewrite all_char_append, Hcur, all_char_cons.
    unfold blank_or_mark in Hx. rewrite E1, orb_false_r in Hx.
    now rewrite Hx.
Qed.

Lemma split_questions_blank question :
  all_char blank_or_mark question = true ->
  _split_questions question = [].
Proof.
  intros H. unfold _split_questions, stripped_parts, re_split.
  pose proof (re_split_go_blank question 0 false "" H eq_refl) as HF.
  induction HF as [|p ps Hp _ IH]; [reflexivity |].
  cbn [List.filter]. now rewrite (strip_blank p Hp).
Qed.

(** X16: a question made of blanks and question marks only (the empty
    question too) has no sub-question: [route] returns the empty answer
    and leaves the world as it was, with no classification, no agent and
    no index built. *)
Theorem X16_route_nothing_asked (sv : Services) (self : MetaAgent)
  (question : string) (w : World) :
  all_char blank_or_mark question = true ->
  _split_questions question = []
  /\ route sv self question w = (Returned "", w).
Proof.
  intros H. split; [now apply split_questions_blank |].
  unfold route. now rewrite (split_questions_blank question H).
Qed.

(** " ? ?? " asks nothing. *)
Lemma X16_route_nothing_asked_witness :
  route fixtures.no_pages
    (meta_agent.__init__ fixtures.no_pages fixtures.registry)
    " ? ?? " fixtures.new_world
  = (Returned "", fixtures.new_world).
Proof.
  apply (X16_route_nothing_asked fixtures.no_pages
           (meta_agent.__init__ fixtures.no_pages fixtures.registry)
           " ? ?? " fixtures.new_world).
  reflexivity.
Defined.







(** ** The subject gate, once more *)

(** X19: what the subject gate can say.  The subject is compared without
    regard to letter case; an agent for Math, English or EVS answers a
    refusal with the subject's name as the code spells it, and only for a
    question without any of that subject's keywords; an agent for any
    other subject is never refused.  For English and EVS a question is
    refused exactly when it has none of the keywords. *)
Theorem X19_gate_answers (subject q : string) :
  (forall r, subject_gate subject q = Some r ->
     (lower subject = "math"
      /\ r = "Sorry, I can only answer Math questions."
      /\ any_in math_keywords (lower q) = false)
     \/ (lower subject = "english"
         /\ r = "Sorry, I can only answer English questions."
         /\ any_in english_keywords (lower q) = false)
     \/ (lower subject = "evs"
         /\ r = "Sorry, I can only answer EVS questions."
         /\ any_in evs_keywords (lower q) = false))
  /\ (lower subject = "english" ->
      any_in english_keywords (lower q) = false ->
      subject_gate subject q
      = Some "Sorry, I can only answer English questions.")
  /\ (lower subject = "evs" ->
      any_in evs_keywords (lower q) = false ->
      subject_gate subject q = Some "Sorry, I can only answer EVS questions.")
  /\ (lower subject <> "math" -> lower subject <> "english" ->
      lower subject <> "evs" -> subject_gate subject q = None).
Proof.
  split; [|split; [|split]].
  - intros r. unfold subject_gate.
    destruct (math_gate subject q) as [r0|] eqn:Em.
    { intros [= <-]. left.
      apply math_gate_inv in Em as (-> & E & Hk & _). auto. }
    unfold english_gate, evs_gate.
    destruct (String.eqb_spec (lower subject) "english") as [E | _].
    { destruct (any_in english_keywords (lower q)) eqn:Hk; cbn [negb].
      - destruct (String.eqb_spec (lower subject) "evs") as [E' | _];
          [congruence | discriminate].
      - intros [= <-]. right. left. auto. }
    destruct (String.eqb_spec (lower subject) "evs") as [E | _];
      [|discriminate].
    destruct (any_in evs_keywords (lower q)) eqn:Hk; cbn [negb];
      [discriminate |].
    intros [= <-]. right. right. auto.
  - intros E Hk. rewrite (gate_of_english _ _ E).
    unfold english_gate. now rewrite E, Hk.
  - intros E Hk. rewrite (gate_of_evs _ _ E).
    unfold evs_gate. now rewrite E, Hk.
  - intros H1 H2 H3. unfold subject_gate, math_gate, english_gate, evs_gate.
    destruct (String.eqb_spec (lower subject) "math"); [contradiction |].
    destruct (String.eqb_spec (lower subject) "english"); [contradiction |].
    now destruct (String.eqb_spec (lower subject) "evs").
Qed.

(** An agent called "english" in small letters refuses with the name in
    the code's spelling. *)
Lemma X19_gate_answers_witness :
  subject_gate "english" "what is a dog"
  = Some "Sorry, I can only answer English questions.".
Proof.
  apply (X19_gate_answers "english" "what is a dog"); reflexivity.
Defined.

Lemma prefix_spec w s :
  String.prefix w s = true <-> exists post, s = w +:+ post.
Proof.
  revert s. induction w as [|a w IH]; intros s.
  - split; [intros _; now exists s | intros _; now destruct s].
  - destruct s as [|b s].
    + split; [discriminate | intros [post E]; discriminate E].
    + cbn [String.prefix]. destruct (ascii_dec a b) as [<- | N].
      * rewrite IH. split; intros [post E]; exists post.
        -- cbn [append]. now rewrite E.
        -- cbn [append] in E. now injection E.
      * split; [discriminate |]. intros [post E]. cbn [append] in E.
        injection E as E _. now elim N.
Qed.

Lemma contains_spec w s :
  contains w s = true <-> exists pre post, s = pre +:+ w +:+ post.
Proof.
  induction s as [|c s IH]; rewrite contains_eq.
  - destruct (String.prefix w "") eqn:E.
    + split; [|reflexivity]. intros _. apply prefix_spec in E as [post Ep].
      now exists "", post.
    + split; [discriminate |]. intros (pre & post & Es).
      destruct pre; [|discriminate Es]. cbn [append] in Es.
      assert (String.prefix w "" = true) by (apply prefix_spec; eauto).
      congruence.
  - destruct (String.prefix w (String c s)) eqn:E.
    + split; [|reflexivity]. intros _. apply prefix_spec in E as [post Ep].
      now exists "", post.
    + rewrite IH. split.
      * intros (pre & post & Es). exists (String c pre), post.
        cbn [append]. now rewrite Es.
      * intros (pre & post & Es). destruct pre as [|x pre].
        -- cbn [append] in Es.
           assert (String.prefix w (String c s) = true)
             by (apply prefix_spec; eauto).
           congruence.
        -- cbn [append] in Es. injection Es as _ Es. now exists pre, post.
Qed.

(** What holds a text holds its parts. *)
Lemma contains_part a w b s :
  contains (a +:+ w +:+ b) s = true -> contains w s = true.
Proof.
  rewrite !contains_spec. intros (pre & post & ->).
  exists (pre +:+ a), (b +:+ post). now rewrite !append_assoc.
Qed.

(** X20: the generic phrase "explain" holds the letter x, which is a Math
    keyword: a question that says "explain", in any letter case, is never
    refused by the Math agent, and a question that the Math agent refuses
    says "what is", "tell me" or "describe". *)
Theorem X20_explain_passes (subject q : string) :
  lower subject = "math" ->
  (contains "explain" (lower q) = true -> subject_gate subject q = None)
  /\ (forall r, subject_gate subject q = Some r ->
        contains "what is" (lower q) = true
        \/ contains "tell me" (lower q) = true
        \/ contains "describe" (lower q) = true).
Proof.
  intros Hm. split.
  - intros H. rewrite (gate_of_math _ _ Hm). apply math_gate_open. left.
    exact (contains_part "e" "x" "plain" (lower q) H).
  - intros r Hr. rewrite (gate_of_math _ _ Hm) in Hr.
    apply math_gate_inv in Hr as (_ & _ & Hk & _ & Hg & _).
    unfold any_in, generic_words in Hg. cbn [existsb] in Hg.
    destruct (contains "explain" (lower q)) eqn:He.
    { pose proof (contains_part "e" "x" "plain" (lower q) He) as Hx.
      rewrite (any_in_false_In _ _ "x" Hk (or_introl eq_refl)) in Hx.
      discriminate Hx. }
    destruct (contains "what is" (lower q)); [now left |].
    destruct (contains "tell me" (lower q)); [now (right; left) |].
    destruct (contains "describe" (lower q)); [now (right; right) |].
    discriminate Hg.
Qed.

(** "Explain why the sky is blue" has nothing of Math in it but an x. *)
Lemma X20_explain_passes_witness :
  subject_gate "Math" "Explain why the sky is blue" = None.
Proof.
  apply (X20_explain_passes "Math" "Explain why the sky is blue" eq_refl).
  reflexivity.
Defined.

(** ** The history shown to the completion service *)

Lemma last_n_snoc {A} (n : nat) (l : list A) (x : A) :
  last_n (S n) (l ++ [x]) = last_n n l ++ [x].
Proof.
  unfold last_n. rewrite List.length_app. cbn [List.length].
  replace (List.length l + 1 - S n) with (List.length l - n) by lia.
  rewrite List.skipn_app.
  replace (List.length l - n - List.length l) with 0 by lia.
  reflexivity.
Qed.

Lemma last_n_length {A} (n : nat) (l : list A) :
  List.length (last_n n l) <= n.
Proof. unfold last_n. rewrite List.length_skipn. lia. Qed.

(** X21: whenever the completion service is called, the prompt is built
    from the subject, the retrieved texts, the question, and a history of
    at most ten lines: the nine latest messages of the log before the
    call, oldest first, and then the question itself as the line "User:
    question". *)
Theorem X21_history_window (sv : Services) (self : BaseAgent)
  (q p : string) :
  In (EvComplete p) (calls (query sv self q)) ->
  let earlier := last_n 9 (messages (chat_memory (agent_memory self))) in
  p = build_prompt (subject self) (context_of (retrieved sv self q))
        (join nl (map history_line earlier ++ ["User: " +:+ q]))
        q
  /\ List.length earlier <= 9.
Proof.
  intros Hin earlier. apply completion_called in Hin as (-> & _ & _).
  split; [|apply last_n_length].
  unfold prompt_of, asked, remember, add_user_message.
  cbn [chat_memory messages]. rewrite last_n_snoc, List.map_app.
  reflexivity.
Qed.

(** With a log of twelve messages, the prompt shows the last nine and the
    question. *)
Lemma X21_history_window_witness :
  prompt_of fixtures.talkative "where does water go"
    [fixtures.page "Plants need water and sunlight to grow."]
  = build_prompt "EVS" "Plants need water and sunlight to grow."
      (join nl
         (map history_line
            (List.skipn 3
               (messages (chat_memory (agent_memory fixtures.talkative))))
          ++ ["User: where does water go"]))
      "where does water go".
Proof.
  refine (proj1 (X21_history_window
           (fixtures.services
              [fixtures.page "Plants need water and sunlight to grow."])
           fixtures.talkative "where does water go"
           (prompt_of fixtures.talkative "where does water go"
              [fixtures.page "Plants need water and sunlight to grow."]) _)).
  right. left. reflexivity.
Defined.

(** ** Equations that start with a bare x *)

Lemma both_app_not_beyond (r1 r2 : result (list token)) :
  r1 <> Beyond -> r2 <> Beyond -> both (@app token) r1 r2 <> Beyond.
Proof. destruct r1, r2; intros H1 H2; cbn; congruence. Qed.

Lemma flush_not_beyond p :
  pending_digits p <= max_str_digits -> flush p <> Beyond.
Proof.
  destruct p as [|ds|id| |]; cbn [flush pending_digits]; try discriminate.
  intros H. unfold number_token.
  destruct (Nat.ltb_spec max_str_digits (String.length ds)); [lia |].
  destruct ds as [|c [|d ds]]; [discriminate | |];
    destruct c as [[] [] [] [] [] [] [] []]; try discriminate;
    destruct (all_zero _); discriminate.
Qed.

Lemma length_append_one ds c :
  String.length (ds +:+ String c "") = S (String.length ds).
Proof. induction ds as [|d ds IH]; cbn; [reflexivity | now rewrite IH]. Qed.

(** Decide a test on a known character. *)
Ltac decide_test :=
  match goal with
  | |- context [if ?b then _ else _] =>
      let v := eval vm_compute in b in
      first [constr_eq v true | constr_eq v false];
      change b with v; cbv iota
  end.

(** After every x has been given its star, a one-line text with few
    enough characters is read by the tokenizer without leaving the
    fragment. *)
Lemma lex_starred_not_beyond s :
  forall p,
    all_char one_line s = true ->
    pending_digits p + String.length s <= max_str_digits ->
    lex p (replace "x" "*x" (replace "X" "x" s)) <> Beyond.
Proof.
  induction s as [|c s IH]; intros p Hs Hlen.
  - cbn. apply flush_not_beyond. cbn in Hlen. lia.
  - rewrite all_char_cons in Hs. apply andb_prop in Hs as [Hc Hs].
    cbn [String.length] in Hlen.
    assert (Hf : flush p <> Beyond) by (apply flush_not_beyond; lia).
    assert (H0 : forall p', pending_digits p' <= 1 ->
                 lex p' (replace "x" "*x" (replace "X" "x" s)) <> Beyond)
      by (intros p' Hp'; apply IH; [exact Hs | lia]).
    assert (HN : forall ds, String.length ds <= S (pending_digits p) ->
                 lex (PNum ds) (replace "x" "*x" (replace "X" "x" s))
                 <> Beyond)
      by (intros ds Hds; apply IH; [exact Hs | cbn [pending_digits]; lia]).
    destruct c as [[] [] [] [] [] [] [] []]; try discriminate Hc;
      cbn [replace Ascii.eqb Bool.eqb append];
      destruct p as [|ds|id| |];
      repeat (cbn [lex]; repeat decide_test);
      repeat first
        [ apply both_app_not_beyond
        | exact Hf
        | discriminate
        | apply H0; cbn; lia
        | apply HN; cbn [pending_digits]; rewrite ?length_append_one; cbn; lia ].
Qed.

Lemma starred_head l :
  starts_with_x (skip_blanks l) = true ->
  all_char one_line l = true ->
  exists rest,
    skip_blanks (replace "x" "*x" (replace "X" "x" l))
    = String "*" (String "x" (replace "x" "*x" (replace "X" "x" rest)))
    /\ all_char one_line rest = true
    /\ String.length rest <= String.length l.
Proof.
  induction l as [|c l IH]; [discriminate |].
  intros Hx Hl. rewrite all_char_cons in Hl. apply andb_prop in Hl as [Hc Hl].
  cbn [skip_blanks] in Hx. destruct (is_blank c) eqn:Hb.
  - destruct (IH Hx Hl) as (rest & E & Hr & Hlen).
    exists rest. split; [|split; [exact Hr | cbn; lia]].
    assert (Hnx : Ascii.eqb c "X" = false /\ Ascii.eqb c "x" = false).
    { split.
      - destruct (Ascii.eqb_spec c "X") as [-> | _];
          [discriminate Hb | reflexivity].
      - destruct (Ascii.eqb_spec c "x") as [-> | _];
          [discriminate Hb | reflexivity]. }
    destruct Hnx as [H1 H2].
    cbn [replace]. rewrite H1. cbn [replace]. rewrite H2.
    cbn [skip_blanks]. now rewrite Hb.
  - cbn [starts_with_x] in Hx. exists l.
    split; [|split; [exact Hl | cbn; lia]].
    apply orb_true_iff in Hx as [Hx | Hx]; apply Ascii.eqb_eq in Hx;
      subst c; reflexivity.
Qed.

Lemma starred_raises l :
  starts_with_x (skip_blanks l) = true ->
  all_char one_line l = true ->
  String.length l <= max_str_digits ->
  py_eval (replace "x" "*x" (replace "X" "x" l)) = Raises.
Proof.
  intros Hx Hl Hlen.
  destruct (starred_head l Hx Hl) as (rest & E & Hr & Hle).
  unfold py_eval. rewrite E. cbn [lex]. repeat decide_test.
  cbn [lex]. repeat decide_test. cbn [flush].
  pose proof (lex_starred_not_beyond rest (PName "x") Hr) as Hnb.
  cbn [pending_digits] in Hnb.
  destruct (lex (PName "x") (replace "x" "*x" (replace "X" "x" rest)))
    as [ts| |].
  - reflexivity.
  - reflexivity.
  - exfalso. apply Hnb; [lia | reflexivity].
Qed.

(** X22: an equation whose left-hand side starts with a bare x is not
    solved.  Every x is given a star before evaluation, so "x + 2" is
    evaluated as "*x + 2", which is not an expression: for a left-hand
    side written on one line of at most [max_str_digits] characters, and
    a right-hand side whose evaluation stays within the expressions
    modelled here, [_solve_equation] gives nothing, whatever the
    subject's spelling and the rest of the question. *)
Theorem X22_leading_x_unsolved (sv : Services) (subject q l r : string) :
  search_equation q = Some (l, r) ->
  starts_with_x (skip_blanks l) = true ->
  all_char one_line l = true ->
  String.length l <= max_str_digits ->
  py_eval r <> Beyond ->
  _solve_equation sv subject q = None.
Proof.
  intros Hs Hx Hl Hlen Hr. unfold _solve_equation.
  destruct (negb (String.eqb (lower subject) "math")); [reflexivity |].
  rewrite Hs. unfold eval_and_solve.
  change (replace "X" "x" l) with (replace "X" "x" l).
  rewrite (starred_raises l Hx Hl Hlen).
  destruct (py_eval r); [reflexivity | reflexivity | now elim Hr].
Qed.

(** "x + 2 = 5" is left to the textbook. *)
Lemma X22_leading_x_unsolved_witness :
  _solve_equation (fixtures.services []) "Math" "x + 2 = 5" = None.
Proof.
  apply (X22_leading_x_unsolved (fixtures.services []) "Math" "x + 2 = 5"
           "x + 2 " " 5").
  - reflexivity.
  - reflexivity.
  - reflexivity.
  - vm_compute. lia.
  - vm_compute. discriminate.
Defined.
